(** * aws-key-management-lambda: the key lifecycle operations and their dispatch

    A shallow embedding of [aws-key-management-lambda.py].  The Lambda talks
    to two external services through boto3 clients (STS and KMS).  Each
    Python function is embedded as a finite tree of provider calls whose
    continuation receives what the provider answered (a value, a
    [ClientError] or an exception of another class); [run] interprets such
    a tree against an arbitrary provider and records, in order, every call
    issued and every log line written. *)

From Stdlib Require Import String Ascii ZArith List DecimalString.
From stdpp Require Import gmap strings list.

Local Open Scope Z_scope.

(** ** Python string primitives used by the source *)

Module PyStr.

(** [old in s]: [old] occurs in [s] as a contiguous substring. *)
Fixpoint occurs (old s : string) : bool :=
  String.prefix old s
  || match s with
     | EmptyString => false
     | String _ s' => occurs old s'
     end.

(** The scan of [str.replace] for a non-empty [old]: [skip] counts the
    characters of the current occurrence that remain to be dropped. *)
Fixpoint replace_scan (old new : string) (skip : nat) (s : string) : string :=
  match s with
  | EmptyString => EmptyString
  | String c s' =>
      match skip with
      | S n => replace_scan old new n s'
      | O =>
          if String.prefix old s
          then new +:+ replace_scan old new (Nat.pred (String.length old)) s'
          else String c (replace_scan old new O s')
      end
  end.

(** With an empty [old], Python inserts [new] before every character and
    at the end. *)
Fixpoint intersperse (new s : string) : string :=
  match s with
  | EmptyString => new
  | String c s' => new +:+ String c (intersperse new s')
  end.

(** [s.replace(old, new)]: every non-overlapping occurrence, left to
    right. *)
Definition replace (s old new : string) : string :=
  match old with
  | EmptyString => intersperse new s
  | String _ _ => replace_scan old new O s
  end.

(** What follows the last [sep] in [s], if [sep] occurs at all. *)
Fixpoint after_last (sep : ascii) (s : string) : option string :=
  match s with
  | EmptyString => None
  | String c s' =>
      match after_last sep s' with
      | Some t => Some t
      | None => if Ascii.eqb c sep then Some s' else None
      end
  end.

(** [s.split(sep)[-1]] for a one-character separator: what follows the
    last [sep], or all of [s] when [sep] does not occur. *)
Definition split_last (sep : ascii) (s : string) : string :=
  match after_last sep s with
  | Some t => t
  | None => s
  end.

(** [str(n)] for an integer. *)
Definition of_int (n : Z) : string := NilZero.string_of_int (Z.to_int n).

(** [str(x)] inside an f-string for a value that may be [None]. *)
Definition of_opt (o : option string) : string :=
  match o with
  | Some s => s
  | None => "None"
  end.

End PyStr.

(** ** Provider data *)

Record Tag := { TagKey : string; TagValue : string }.

Record AliasListEntry := { AliasName : string; TargetKeyId : string }.

(** The part of [KeyMetadata] / [ReplicaKeyMetadata] the source reads. *)
Record KeyMetadata := { KeyState : string; Arn : string }.

(** [botocore.exceptions.ClientError]: [Code] is
    [e.response['Error']['Code']], [rendered] is [str(e)]. *)
Record ClientError := { Code : string; rendered : string }.

(** A boto3 client: the service it talks to and the region it was built
    for ([None]: the ambient default, as for [boto3.client('sts')]). *)
Record client := { service : string; region_name : option string }.

Inductive Session := boto3_Session.

(** [boto3.client(svc)]: no argument of the request enters it; the region
    is the one the Lambda runtime provides. *)
Definition boto3_client (svc : string) : client :=
  {| service := svc; region_name := None |}.

(** The client [session.client(svc, region_name=region)] returns when it
    returns one; whether it does is [build_client], below. *)
Definition session_client (_ : Session) (svc region : string) : client :=
  {| service := svc; region_name := Some region |}.

(** The provider operations the source invokes, with their keyword
    arguments. *)
Module Api.

Inductive call : Type :=
| get_caller_identity
| describe_key (KeyId : string)
| disable_key (KeyId : string)
| enable_key (KeyId : string)
| tag_resource (KeyId : string) (Tags : list Tag)
| untag_resource (KeyId : string) (TagKeys : list string)
| list_resource_tags (KeyId : string)
| schedule_key_deletion (KeyId : string) (PendingWindowInDays : Z)
| cancel_key_deletion (KeyId : string)
| list_aliases (KeyId : string)
| create_alias (AliasName TargetKeyId : string)
| get_key_policy (KeyId PolicyName : string)
| put_key_policy (KeyId PolicyName Policy : string)
| replicate_key (KeyId ReplicaRegion Description : string).

(** What the source reads out of a successful response. *)
Definition ret (c : call) : Type :=
  match c with
  | get_caller_identity => string
  | describe_key _ => KeyMetadata
  | list_resource_tags _ => list Tag
  | list_aliases _ => list AliasListEntry
  | get_key_policy _ _ => string
  | replicate_key _ _ _ => KeyMetadata
  | _ => unit
  end.

(** The operations that change provider state. *)
Definition mutating (c : call) : bool :=
  match c with
  | disable_key _ | enable_key _ | tag_resource _ _ | untag_resource _ _
  | schedule_key_deletion _ _ | cancel_key_deletion _ | create_alias _ _
  | put_key_policy _ _ _ | replicate_key _ _ _ => true
  | _ => false
  end.

(** The read-only KMS operations. *)
Definition read_only (c : call) : bool :=
  match c with
  | describe_key _ | list_resource_tags _ | list_aliases _
  | get_key_policy _ _ => true
  | _ => false
  end.

End Api.

(** ** Programs *)

(** Any other exception: botocore's [ParamValidationError] for an argument
    its client-side validation refuses (an empty [KeyId], a
    [PendingWindowInDays] below 1), [InvalidRegionError] for a malformed
    region name, a connection error.  None of them is a [ClientError], so
    no [except ClientError] of the source catches them. *)
Record Exception := { exception_class : string }.

(** How a call ends: with a value, with a [ClientError], or with another
    exception. *)
Inductive response (R : Type) : Type :=
| Returned (r : R)
| Failed (e : ClientError)
| Crashed (x : Exception).
Arguments Returned {R} r.
Arguments Failed {R} e.
Arguments Crashed {R} x.

Inductive level := INFO | WARNING | ERROR.

(** A Python computation: it returns, raises a [ClientError], raises
    another exception, calls the provider through a client, writes a log
    line, reads today's date, or asks the session for a client. *)
Inductive prog (A : Type) : Type :=
| Ret (a : A)
| Raise (e : ClientError)
| Crash (x : Exception)
| Call (cl : client) (c : Api.call) (k : response (Api.ret c) -> prog A)
| Log (lvl : level) (msg : string) (k : prog A)
| Today (k : string -> prog A)
| Client (session : Session) (svc region : string) (k : client -> prog A).
Arguments Ret {A} a.
Arguments Raise {A} e.
Arguments Crash {A} x.
Arguments Call {A} cl c k.
Arguments Log {A} lvl msg k.
Arguments Today {A} k.
Arguments Client {A} session svc region k.

Fixpoint bind {A B} (p : prog A) (f : A -> prog B) : prog B :=
  match p with
  | Ret a => f a
  | Raise e => Raise e
  | Crash x => Crash x
  | Call cl c k => Call cl c (fun r => bind (k r) f)
  | Log lvl msg k => Log lvl msg (bind k f)
  | Today k => Today (fun d => bind (k d) f)
  | Client session svc region k =>
      Client session svc region (fun cl => bind (k cl) f)
  end.

Notation "'let*' x ':=' p 'in' q" := (bind p (fun x => q))
  (at level 10, x name, p at level 100, q at level 200).
Notation "'do' p 'then' q" := (bind p (fun _ => q))
  (at level 10, p at level 100, q at level 200).

(** [try: p  except ClientError as e: h e]; an exception of another
    class passes through. *)
Fixpoint try_except {A} (p : prog A) (h : ClientError -> prog A) : prog A :=
  match p with
  | Ret a => Ret a
  | Raise e => h e
  | Crash x => Crash x
  | Call cl c k => Call cl c (fun r => try_except (k r) h)
  | Log lvl msg k => Log lvl msg (try_except k h)
  | Today k => Today (fun d => try_except (k d) h)
  | Client session svc region k =>
      Client session svc region (fun cl => try_except (k cl) h)
  end.

(** A client method call: the value on success, the exception raised
    otherwise. *)
Definition invoke (cl : client) (c : Api.call) : prog (Api.ret c) :=
  Call cl c (fun r => match r with
                      | Returned v => Ret v
                      | Failed e => Raise e
                      | Crashed x => Crash x
                      end).

(** [session.client(svc, region_name=region)]: the client
    [session_client session svc region], or the exception raised for a
    region name the session refuses. *)
Definition build_client (session : Session) (svc region : string)
    : prog client :=
  Client session svc region Ret.

Definition logger (lvl : level) (msg : string) : prog unit :=
  Log lvl msg (Ret tt).

(** [datetime.datetime.now().strftime('%Y-%m-%d')]. *)
Definition strftime_today : prog string := Today Ret.

(** [for x in xs: body x]. *)
Fixpoint for_each {X} (xs : list X) (body : X -> prog unit) : prog unit :=
  match xs with
  | [] => Ret tt
  | x :: xs' => do body x then for_each xs' body
  end.

(** ** The source functions *)

(** [key_status] (lines 11-19). *)
Definition key_status (kms_client : client) (arn : string) : prog string :=
  try_except
    (let* response := invoke kms_client (Api.describe_key arn) in
     Ret (KeyState response))
    (fun e =>
       if String.eqb (Code e) "NotFoundException" then Ret "NotFound"
       else Raise e).

(** The body of the loop of [disable_keys] (lines 24-43). *)
Definition disable_keys_body (kms_client : client) (dry_run : bool)
    (arn : string) : prog unit :=
  if dry_run then
    let* status := key_status kms_client arn in
    if negb (String.eqb status "NotFound")
    then logger INFO ("Key " +:+ arn +:+ " would be disabled. (Dry Run)")
    else logger INFO ("Key " +:+ arn +:+ " not found. (Dry Run)")
  else
    try_except
      (do invoke kms_client (Api.disable_key arn) then
       let* today := strftime_today in
       do invoke kms_client
            (Api.tag_resource arn
               [ {| TagKey := "DisabledOn"; TagValue := today |} ]) then
       logger INFO ("Key " +:+ arn +:+ " disabled"))
      (fun e =>
         logger ERROR
           ("Failed to disable key " +:+ arn +:+ ": " +:+ rendered e)).

(** [disable_keys] (lines 22-43). *)
Definition disable_keys (kms_client : client) (key_arns : list string)
    (dry_run : bool) : prog unit :=
  for_each key_arns (disable_keys_body kms_client dry_run).

(** [any(tag['TagKey'] == key for tag in tags)]. *)
Definition any_tag (key : string) (tags : list Tag) : bool :=
  List.existsb (fun tag => String.eqb (TagKey tag) key) tags.

(** [next((tag for tag in tags if tag['TagKey'] == key), None)]. *)
Definition next_tag (key : string) (tags : list Tag) : option Tag :=
  List.find (fun tag => String.eqb (TagKey tag) key) tags.

(** The body of the loop of [enable_keys] (lines 48-60); [continue] ends
    the iteration inside the [try]. *)
Definition enable_keys_body (kms_client : client) (arn : string) : prog unit :=
  try_except
    (let* status := key_status kms_client arn in
     if String.eqb status "NotFound"
     then logger INFO ("Key " +:+ arn +:+ " not found")
     else
       do invoke kms_client (Api.enable_key arn) then
       let* tags := invoke kms_client (Api.list_resource_tags arn) in
       do (if any_tag "DisabledOn" tags
           then invoke kms_client (Api.untag_resource arn ["DisabledOn"])
           else Ret tt) then
       logger INFO ("Key " +:+ arn +:+ " enabled"))
    (fun e =>
       logger ERROR ("Failed to enable key " +:+ arn +:+ ": " +:+ rendered e)).

(** [enable_keys] (lines 46-60). *)
Definition enable_keys (kms_client : client) (key_arns : list string)
    : prog unit :=
  for_each key_arns (enable_keys_body kms_client).

Definition excluded_services : list string :=
  ["dynamodb"; "efs"; "elasticache"; "rds"; "s3"].

(** [service_tag and service_tag['TagValue'] in excluded_services]. *)
Definition in_excluded_service (service_tag : option Tag) : bool :=
  match service_tag with
  | Some tag => List.existsb (String.eqb (TagValue tag)) excluded_services
  | None => false
  end.

(** The body of the loop of [schedule_key_deletion] (lines 68-95). *)
Definition schedule_key_deletion_body (kms_client : client)
    (deletion_days : Z) (dry_run : bool) (arn : string) : prog unit :=
  try_except
    (let* status := key_status kms_client arn in
     if String.eqb status "PendingDeletion"
     then logger INFO ("Key " +:+ arn +:+ " already scheduled for deletion.")
     else
       let* tags := invoke kms_client (Api.list_resource_tags arn) in
       let service_tag := next_tag "service_name" tags in
       if in_excluded_service service_tag
       then (* [service_tag] is a tag here: the test above holds *)
            logger WARNING
              ("Key " +:+ arn +:+ " is in use by "
               +:+ from_option TagValue "" service_tag
               +:+ " — skipping deletion.")
       else
         let disabled_tag := next_tag "DisabledOn" tags in
         match disabled_tag with
         | Some _ =>
             if dry_run
             then logger INFO
                    ("Key " +:+ arn +:+ " would be scheduled for deletion in "
                     +:+ PyStr.of_int deletion_days +:+ " days. (Dry Run)")
             else
               do invoke kms_client
                    (Api.schedule_key_deletion arn deletion_days) then
               logger INFO
                 ("Key " +:+ arn +:+ " scheduled for deletion in "
                  +:+ PyStr.of_int deletion_days +:+ " days.")
         | None =>
             logger INFO ("Key " +:+ arn +:+ " is not disabled — skipping deletion.")
         end)
    (fun e =>
       if String.eqb (Code e) "NotFoundException"
       then logger INFO ("Key " +:+ arn +:+ " not found.")
       else logger ERROR
              ("Failed to schedule deletion for key " +:+ arn +:+ ": "
               +:+ rendered e)).

(** [schedule_key_deletion] (lines 63-95). *)
Definition schedule_key_deletion (kms_client : client)
    (key_arns : list string) (deletion_days : Z) (dry_run : bool)
    : prog unit :=
  for_each key_arns (schedule_key_deletion_body kms_client deletion_days dry_run).

(** [status in ['PendingDeletion', 'PendingReplicaDeletion']]. *)
Definition pending_deletion (status : string) : bool :=
  List.existsb (String.eqb status) ["PendingDeletion"; "PendingReplicaDeletion"].

(** The body of the loop of [cancel_key_deletion] (lines 100-108). *)
Definition cancel_key_deletion_body (kms_client : client) (arn : string)
    : prog unit :=
  try_except
    (let* status := key_status kms_client arn in
     if pending_deletion status
     then
       do invoke kms_client (Api.cancel_key_deletion arn) then
       logger INFO ("Cancelled deletion for key " +:+ arn)
     else
       logger INFO
         ("Key " +:+ arn +:+ " is not scheduled for deletion — nothing to cancel."))
    (fun e =>
       logger ERROR
         ("Error cancelling deletion for key " +:+ arn +:+ ": " +:+ rendered e)).

(** [cancel_key_deletion] (lines 98-108). *)
Definition cancel_key_deletion (kms_client : client) (key_arns : list string)
    : prog unit :=
  for_each key_arns (cancel_key_deletion_body kms_client).

(** [tag_srk_migration] (lines 111-120). *)
Definition tag_srk_migration (kms_client : client) (key_arns : list string)
    : prog unit :=
  for_each key_arns (fun arn =>
    try_except
      (do invoke kms_client
            (Api.tag_resource arn
               [ {| TagKey := "MigrationStatus"; TagValue := "completed" |} ]) then
       logger INFO ("Tagged key " +:+ arn +:+ " with MigrationStatus=completed"))
      (fun e =>
         logger ERROR ("Failed to tag key " +:+ arn +:+ ": " +:+ rendered e))).

(** [remove_tag_srk_migration] (lines 123-129). *)
Definition remove_tag_srk_migration (kms_client : client)
    (key_arns : list string) : prog unit :=
  for_each key_arns (fun arn =>
    try_except
      (do invoke kms_client (Api.untag_resource arn ["MigrationStatus"]) then
       logger INFO ("Removed MigrationStatus tag from key " +:+ arn))
      (fun e =>
         logger ERROR
           ("Failed to remove tag from key " +:+ arn +:+ ": " +:+ rendered e))).

(** [key_arn.split('/')[-1]]. *)
Definition key_id (key_arn : string) : string := PyStr.split_last "/" key_arn.

(** [get_primary_alias] (lines 132-140). *)
Definition get_primary_alias (kms_client : client) (key_arn : string)
    : prog (option string) :=
  try_except
    (let* aliases := invoke kms_client (Api.list_aliases key_arn) in
     match List.find
             (fun alias => String.eqb (TargetKeyId alias) (key_id key_arn))
             aliases with
     | Some alias => Ret (Some (AliasName alias))
     | None => Ret None
     end)
    (fun e =>
       do logger ERROR
            ("Error getting alias for key " +:+ key_arn +:+ ": " +:+ rendered e) then
       Ret None).

(** [primary_alias.replace('_ca-central-1', f'_{secondary_region}')]. *)
Definition secondary_alias_of (primary_alias secondary_region : string) : string :=
  PyStr.replace primary_alias "_ca-central-1" ("_" +:+ secondary_region).

(** [replicate_key] (lines 143-171). *)
Definition replicate_key (session : Session)
    (primary_key_arn primary_alias secondary_region : string) (dry_run : bool)
    : prog unit :=
  let secondary_alias := secondary_alias_of primary_alias secondary_region in
  let* kms_primary := build_client session "kms" "ca-central-1" in
  let* kms_secondary := build_client session "kms" secondary_region in
  try_except
    (let* policy := invoke kms_primary (Api.get_key_policy primary_key_arn "default") in
     let* tags := invoke kms_primary (Api.list_resource_tags primary_key_arn) in
     if dry_run
     then logger INFO
            ("Would replicate key " +:+ primary_key_arn +:+ " to "
             +:+ secondary_region +:+ " with alias " +:+ secondary_alias
             +:+ ". (Dry Run)")
     else
       let* response :=
         invoke kms_primary
           (Api.replicate_key primary_key_arn secondary_region "Replica key") in
       let replica_arn := Arn response in
       do invoke kms_secondary (Api.put_key_policy replica_arn "default" policy) then
       do invoke kms_secondary (Api.create_alias secondary_alias replica_arn) then
       do match tags with
          | [] => Ret tt
          | _ :: _ => invoke kms_secondary (Api.tag_resource replica_arn tags)
          end then
       logger INFO ("Replica key created with alias " +:+ secondary_alias))
    (fun e =>
       logger ERROR
         ("Error replicating key " +:+ primary_key_arn +:+ ": " +:+ rendered e)).

(** The request, its fields at the types the source uses them at:
    [event.get(key)] is [None] when the key is absent. *)
Module Event.
Record t := mk {
  aws_region : option string;
  action : option string;
  key_arns : option (list string);
  dry_run : option bool;
  deletion_schedule_days : option Z
}.
End Event.

Record Response := { statusCode : Z; body : string }.

Definition blocked_accounts : list string := ["111122223333"].

(** [action == name], where [action] may be [None]. *)
Definition action_is (action : option string) (name : string) : bool :=
  match action with
  | Some a => String.eqb a name
  | None => false
  end.

(** The body of the loop of the [replicate_ireland] branch (lines 224-228);
    [if alias:] also rejects the empty string. *)
Definition replicate_ireland_body (session : Session) (kms_client : client)
    (secondary_region : string) (dry_run : bool) (arn : string) : prog unit :=
  let* alias := get_primary_alias kms_client arn in
  match alias with
  | Some (String c a) =>
      replicate_key session arn (String c a) secondary_region dry_run
  | Some EmptyString | None =>
      logger WARNING ("No alias found for " +:+ arn +:+ ", skipping replication.")
  end.

(** The [replicate_ireland] branch of [lambda_handler] (lines 222-228). *)
Definition replicate_ireland (session : Session) (kms_client : client)
    (key_arns : list string) (dry_run : bool) : prog unit :=
  let secondary_region := "eu-west-1" in
  for_each key_arns
    (replicate_ireland_body session kms_client secondary_region dry_run).

(** [lambda_handler] (lines 174-239). *)
Definition lambda_handler (event : Event.t) : prog Response :=
  let aws_region := default "us-east-1" (Event.aws_region event) in
  let action := Event.action event in
  let key_arns := default [] (Event.key_arns event) in
  let dry_run := default false (Event.dry_run event) in
  let deletion_days := default 30 (Event.deletion_schedule_days event) in
  let sts := boto3_client "sts" in
  let* account_id := invoke sts Api.get_caller_identity in
  if List.existsb (String.eqb account_id) blocked_accounts
  then
    do logger WARNING ("Execution blocked in account " +:+ account_id) then
    Ret {| statusCode := 403; body := "Execution not allowed in this account" |}
  else
    let session := boto3_Session in
    let* kms_client := build_client session "kms" aws_region in
    match key_arns with
    | [] =>
        do logger ERROR "No key ARNs provided." then
        Ret {| statusCode := 400; body := "No key ARNs specified" |}
    | _ :: _ =>
        let completed :=
          Ret {| statusCode := 200;
                 body := "Action " +:+ PyStr.of_opt action +:+ " completed" |} in
        if action_is action "disable"
        then do disable_keys kms_client key_arns dry_run then completed
        else if action_is action "enable"
        then do enable_keys kms_client key_arns then completed
        else if action_is action "schedule_deletion"
        then do schedule_key_deletion kms_client key_arns deletion_days dry_run
             then completed
        else if action_is action "cancel_deletion"
        then do cancel_key_deletion kms_client key_arns then completed
        else if action_is action "tag_srk_migration"
        then do tag_srk_migration kms_client key_arns then completed
        else if action_is action "remove_tag_srk_migration"
        then do remove_tag_srk_migration kms_client key_arns then completed
        else if action_is action "replicate_ireland"
        then do replicate_ireland session kms_client key_arns dry_run
             then completed
        else
          do logger ERROR ("Unsupported action: " +:+ PyStr.of_opt action) then
          Ret {| statusCode := 400;
                 body := "Unsupported action: " +:+ PyStr.of_opt action |}
    end.

(** ** Running a program against a provider *)

(** What an observer of a run sees, in order. *)
Inductive observation : Type :=
| Issued (cl : client) (c : Api.call)
| Logged (lvl : level) (msg : string).

(** The end of a run: the value returned or the exception that escaped,
    the trace, and the provider state left behind. *)
Record run_result (W A : Type) := {
  outcome : response A;
  trace : list observation;
  final : W
}.
Arguments outcome {W A} _.
Arguments trace {W A} _.
Arguments final {W A} _.

(** A provider answers each call from its current state and moves to a new
    one; [rejects] is the session's check of a region name, with the
    exception it raises for a name it refuses. *)
Record provider_of (W : Type) : Type := {
  respond :> client -> forall c : Api.call, W -> response (Api.ret c) * W;
  rejects : string -> option Exception
}.
Arguments respond {W} _ _ _ _.
Arguments rejects {W} _ _.

Definition seen {W A} (ev : observation) (r : run_result W A) : run_result W A :=
  {| outcome := outcome r; trace := ev :: trace r; final := final r |}.

Fixpoint run {W A} (provider : provider_of W) (today : string)
    (p : prog A) (w : W) : run_result W A :=
  match p with
  | Ret a => {| outcome := Returned a; trace := []; final := w |}
  | Raise e => {| outcome := Failed e; trace := []; final := w |}
  | Crash x => {| outcome := Crashed x; trace := []; final := w |}
  | Call cl c k =>
      let answer := provider cl c w in
      seen (Issued cl c) (run provider today (k (fst answer)) (snd answer))
  | Log lvl msg k => seen (Logged lvl msg) (run provider today k w)
  | Today k => run provider today (k today) w
  | Client session svc region k =>
      match rejects provider region with
      | Some x => {| outcome := Crashed x; trace := []; final := w |}
      | None => run provider today (k (session_client session svc region)) w
      end
  end.

(** The provider calls of a trace. *)
Definition calls (tr : list observation) : list (client * Api.call) :=
  omap (fun ev => match ev with
                  | Issued cl c => Some (cl, c)
                  | Logged _ _ => None
                  end) tr.

(** The log lines of a trace. *)
Definition logs (tr : list observation) : list (level * string) :=
  omap (fun ev => match ev with
                  | Issued _ _ => None
                  | Logged lvl msg => Some (lvl, msg)
                  end) tr.

(** Some call of the trace changes provider state. *)
Definition mutates (tr : list observation) : bool :=
  List.existsb (fun ev => match ev with
                          | Issued _ c => Api.mutating c
                          | Logged _ _ => false
                          end) tr.

(** ** A reference provider

    The key-management service itself is not part of the repository.  This
    is a small deterministic model of its interface (one record per key and
    region), used to exhibit concrete runs: a call on a key that does not
    exist fails with [NotFoundException], and the lifecycle calls are
    rejected in the states where the service rejects them.  It answers
    every call with a value or a [ClientError]; the validation of
    arguments that botocore runs before a call is [Scenario.validating],
    below. *)

Module Kms.

Record key := {
  state : string;
  tags : list Tag;
  policy : string;
  aliases : list AliasListEntry
}.

(** The caller's account and the keys, by region and identifier. *)
Record world := {
  account : string;
  keys : gmap (string * string) key
}.

Definition error (code op : string) : ClientError :=
  {| Code := code;
     rendered := "An error occurred (" +:+ code +:+ ") when calling the "
                 +:+ op +:+ " operation" |}.

Definition region_of (cl : client) : string := default "" (region_name cl).

Definition with_state (s : string) (k : key) : key :=
  {| state := s; tags := tags k; policy := policy k; aliases := aliases k |}.

Definition with_tags (ts : list Tag) (k : key) : key :=
  {| state := state k; tags := ts; policy := policy k; aliases := aliases k |}.

Definition with_policy (p : string) (k : key) : key :=
  {| state := state k; tags := tags k; policy := p; aliases := aliases k |}.

Definition with_alias (a : AliasListEntry) (k : key) : key :=
  {| state := state k; tags := tags k; policy := policy k;
     aliases := aliases k ++ [a] |}.

Definition drop_tags (names : list string) (ts : list Tag) : list Tag :=
  List.filter
    (fun t => negb (List.existsb (String.eqb (TagKey t)) names)) ts.

Definition put_tags (new ts : list Tag) : list Tag :=
  drop_tags (List.map TagKey new) ts ++ new.

Definition store (w : world) (r id : string) (k : key) : world :=
  {| account := account w; keys := <[(r, id) := k]> (keys w) |}.

(** A call on key [id] in region [r]: [f] decides from the key found. *)
Definition on_key {R} (w : world) (r id op : string)
    (f : key -> response R * world) : response R * world :=
  match keys w !! (r, id) with
  | Some k => f k
  | None => (Failed (error "NotFoundException" op), w)
  end.

Definition deleting (k : key) : bool :=
  String.eqb (state k) "PendingDeletion"
  || String.eqb (state k) "PendingReplicaDeletion".

(** A state change that the service refuses for a key being deleted. *)
Definition transition (w : world) (r id op target : string)
    : response unit * world :=
  on_key w r id op (fun k =>
    if deleting k then (Failed (error "KMSInvalidStateException" op), w)
    else (Returned tt, store w r id (with_state target k))).

Definition answer (cl : client) (c : Api.call) (w : world)
    : response (Api.ret c) * world :=
  let r := region_of cl in
  match c return response (Api.ret c) * world with
  | Api.get_caller_identity => (Returned (account w), w)
  | Api.describe_key id =>
      on_key w r id "DescribeKey" (fun k =>
        (Returned {| KeyState := state k; Arn := id |}, w))
  | Api.disable_key id => transition w r id "DisableKey" "Disabled"
  | Api.enable_key id => transition w r id "EnableKey" "Enabled"
  | Api.tag_resource id new =>
      on_key w r id "TagResource" (fun k =>
        (Returned tt, store w r id (with_tags (put_tags new (tags k)) k)))
  | Api.untag_resource id names =>
      on_key w r id "UntagResource" (fun k =>
        (Returned tt, store w r id (with_tags (drop_tags names (tags k)) k)))
  | Api.list_resource_tags id =>
      on_key w r id "ListResourceTags" (fun k => (Returned (tags k), w))
  | Api.schedule_key_deletion id _ =>
      transition w r id "ScheduleKeyDeletion" "PendingDeletion"
  | Api.cancel_key_deletion id =>
      on_key w r id "CancelKeyDeletion" (fun k =>
        if deleting k
        then (Returned tt, store w r id (with_state "Disabled" k))
        else (Failed (error "KMSInvalidStateException" "CancelKeyDeletion"), w))
  | Api.list_aliases id =>
      on_key w r id "ListAliases" (fun k => (Returned (aliases k), w))
  | Api.create_alias name target =>
      on_key w r target "CreateAlias" (fun k =>
        (Returned tt,
         store w r target
           (with_alias {| AliasName := name; TargetKeyId := key_id target |} k)))
  | Api.get_key_policy id _ =>
      on_key w r id "GetKeyPolicy" (fun k => (Returned (policy k), w))
  | Api.put_key_policy id _ doc =>
      on_key w r id "PutKeyPolicy" (fun k =>
        (Returned tt, store w r id (with_policy doc k)))
  | Api.replicate_key id r' _ =>
      on_key w r id "ReplicateKey" (fun k =>
        let id' := PyStr.replace id r r' in
        match keys w !! (r', id') with
        | Some _ => (Failed (error "AlreadyExistsException" "ReplicateKey"), w)
        | None =>
            (Returned {| KeyState := "Creating"; Arn := id' |},
             store w r' id'
               {| state := "Enabled"; tags := []; policy := "";
                  aliases := [] |})
        end)
  end.

(** A letter, a digit or a hyphen. *)
Definition label_char (c : ascii) : bool :=
  let n := nat_of_ascii c in
  (Nat.leb 97 n && Nat.leb n 122) || (Nat.leb 65 n && Nat.leb n 90)
  || (Nat.leb 48 n && Nat.leb n 57) || Nat.eqb n 45.

Fixpoint label (s : string) : bool :=
  match s with
  | EmptyString => true
  | String c s' => label_char c && label s'
  end.

(** The session refuses a region name that holds anything but letters,
    digits and hyphens. *)
Definition region_check (region : string) : option Exception :=
  if label region then None
  else Some {| exception_class := "InvalidRegionError" |}.

Definition provider : provider_of world :=
  {| respond := answer; rejects := region_check |}.

(** The key [arn] exists in the client's region and carries the
    [DisabledOn] tag. *)
Definition carries_disabled_on (w : world) (cl : client) (arn : string)
    : Prop :=
  match keys w !! (region_of cl, arn) with
  | Some k => any_tag "DisabledOn" (tags k) = true
  | None => False
  end.

(** A provider that answers the identity query and refuses every key
    operation, as for a caller without KMS permissions. *)
Definition denying (acct : string) : provider_of unit :=
  {| respond := fun cl c w =>
       (match c return response (Api.ret c) with
        | Api.get_caller_identity => Returned acct
        | _ => Failed (error "AccessDeniedException" "KMS")
        end, w);
     rejects := region_check |}.

End Kms.

(** ** Vocabulary of the properties *)

(** Sequencing of runs: [k] continues from where [r] returned; an
    exception that escaped [r] ends the run. *)
Definition and_then {W A B} (r : run_result W A)
    (k : A -> W -> run_result W B) : run_result W B :=
  match outcome r with
  | Returned a =>
      let r' := k a (final r) in
      {| outcome := outcome r'; trace := trace r ++ trace r'; final := final r' |}
  | Failed e => {| outcome := Failed e; trace := trace r; final := final r |}
  | Crashed x => {| outcome := Crashed x; trace := trace r; final := final r |}
  end.

(** Recovery of runs: [h] continues from where [r] raised a
    [ClientError]. *)
Definition or_else {W A} (r : run_result W A)
    (h : ClientError -> W -> run_result W A) : run_result W A :=
  match outcome r with
  | Returned a => {| outcome := Returned a; trace := trace r; final := final r |}
  | Failed e =>
      let r' := h e (final r) in
      {| outcome := outcome r'; trace := trace r ++ trace r'; final := final r' |}
  | Crashed x => {| outcome := Crashed x; trace := trace r; final := final r |}
  end.

(** Everything the program can issue or log, whatever the provider
    answers, satisfies [P]. *)
Fixpoint only_observes {A} (P : observation -> Prop) (p : prog A) : Prop :=
  match p with
  | Ret _ | Raise _ | Crash _ => True
  | Call cl c k => P (Issued cl c) /\ forall r, only_observes P (k r)
  | Log lvl msg k => P (Logged lvl msg) /\ only_observes P k
  | Today k => forall d, only_observes P (k d)
  | Client session svc region k =>
      only_observes P (k (session_client session svc region))
  end.

(** A condition on calls alone. *)
Definition on_calls (P : client -> Api.call -> Prop) (o : observation) : Prop :=
  match o with
  | Issued cl c => P cl c
  | Logged _ _ => True
  end.

(** Every call the program can issue, whatever the provider answers,
    satisfies [P]. *)
Definition only_calls {A} (P : client -> Api.call -> Prop) (p : prog A) : Prop :=
  only_observes (on_calls P) p.

(** Every call of the trace satisfies [P]. *)
Definition all_calls (P : client -> Api.call -> Prop) (tr : list observation)
    : Prop :=
  Forall (on_calls P) tr.

(** The state [key_status] resolves for [arn] from provider state [w], or
    the exception it lets through. *)
Definition resolved {W} (provider : provider_of W) (today : string)
    (kms_client : client) (arn : string) (w : W) : response string :=
  outcome (run provider today (key_status kms_client arn) w).

(** What [list_resource_tags] answers for [arn] right after its state was
    resolved from [w]. *)
Definition listed_tags {W} (provider : provider_of W) (today : string)
    (kms_client : client) (arn : string) (w : W) : response (list Tag) :=
  fst (provider kms_client (Api.list_resource_tags arn)
         (final (run provider today (key_status kms_client arn) w))).

(** The trace issues call [c] through client [cl]. *)
Definition issues (cl : client) (c : Api.call) (tr : list observation) : Prop :=
  In (Issued cl c) tr.

(** The trace writes log line [msg] at level [lvl]. *)
Definition reports (lvl : level) (msg : string) (tr : list observation) : Prop :=
  In (Logged lvl msg) tr.

(** An alias is created only under the name [primary_alias], and no
    warning is logged. *)
Definition keeps_alias (primary_alias : string) (o : observation) : Prop :=
  match o with
  | Issued _ (Api.create_alias name _) => name = primary_alias
  | Logged WARNING _ => False
  | _ => True
  end.

(** The client of the identity query. *)
Definition sts : client := boto3_client "sts".

(** The action names [lambda_handler] dispatches on. *)
Definition supported : list string :=
  ["disable"; "enable"; "schedule_deletion"; "cancel_deletion";
   "tag_srk_migration"; "remove_tag_srk_migration"; "replicate_ireland"].

(** The call is one of the read-only KMS operations. *)
Definition reads_only (cl : client) (c : Api.call) : Prop :=
  Api.read_only c = true.



(** The session builds a client for [region]. *)
Definition builds {W} (provider : provider_of W) (region : string) : Prop :=
  rejects provider region = None.



(** Whatever its calls answer, the program lets no [ClientError]
    escape. *)
Fixpoint catches {A} (p : prog A) : Prop :=
  match p with
  | Ret _ => True
  | Raise _ => False
  | Crash _ => True
  | Call _ _ k => forall r, catches (k r)
  | Log _ _ k => catches k
  | Today k => forall d, catches (k d)
  | Client session svc region k =>
      catches (k (session_client session svc region))
  end.


(** Where each call of the replicate action goes: the identity query to
    STS, the alias lookup through the client of the request's region, the
    reads and the replication through a [ca-central-1] client, and the
    writes on the replica through an [eu-west-1] client. *)
Definition replicate_discipline (request_region : string) (cl : client)
    (c : Api.call) : Prop :=
  match c with
  | Api.get_caller_identity => cl = boto3_client "sts"
  | Api.list_aliases _ =>
      cl = session_client boto3_Session "kms" request_region
  | Api.get_key_policy _ _ | Api.list_resource_tags _ =>
      cl = session_client boto3_Session "kms" "ca-central-1"
  | Api.replicate_key _ region _ =>
      cl = session_client boto3_Session "kms" "ca-central-1"
      /\ region = "eu-west-1"
  | Api.put_key_policy _ _ _ | Api.create_alias _ _ | Api.tag_resource _ _ =>
      cl = session_client boto3_Session "kms" "eu-west-1"
  | _ => False
  end.

(** The key a call is about. *)
Definition key_of (c : Api.call) : option string :=
  match c with
  | Api.get_caller_identity => None
  | Api.describe_key id | Api.disable_key id | Api.enable_key id
  | Api.tag_resource id _ | Api.untag_resource id _
  | Api.list_resource_tags id | Api.schedule_key_deletion id _
  | Api.cancel_key_deletion id | Api.list_aliases id
  | Api.create_alias _ id | Api.get_key_policy id _
  | Api.put_key_policy id _ _ | Api.replicate_key id _ _ => Some id
  end.

(** The call goes through [cl], is one of the [allowed] ones and is about
    a key of [key_arns]. *)
Definition on_requested (cl : client) (key_arns : list string)
    (allowed : Api.call -> bool) (cl' : client) (c : Api.call) : Prop :=
  cl' = cl /\ allowed c = true
  /\ exists arn, key_of c = Some arn /\ In arn key_arns.

(** What each lifecycle operation may issue. *)
Definition disable_calls (dry_run : bool) (c : Api.call) : bool :=
  match c with
  | Api.describe_key _ => dry_run
  | Api.disable_key _ => negb dry_run
  | Api.tag_resource _ [ {| TagKey := k; TagValue := _ |} ] =>
      negb dry_run && String.eqb k "DisabledOn"
  | _ => false
  end.

Definition enable_calls (c : Api.call) : bool :=
  match c with
  | Api.describe_key _ | Api.enable_key _ | Api.list_resource_tags _ => true
  | Api.untag_resource _ [k] => String.eqb k "DisabledOn"
  | _ => false
  end.

Definition schedule_calls (days : Z) (dry_run : bool) (c : Api.call) : bool :=
  match c with
  | Api.describe_key _ | Api.list_resource_tags _ => true
  | Api.schedule_key_deletion _ d => negb dry_run && Z.eqb d days
  | _ => false
  end.

Definition cancel_calls (c : Api.call) : bool :=
  match c with
  | Api.describe_key _ | Api.cancel_key_deletion _ => true
  | _ => false
  end.

Definition migration_calls (c : Api.call) : bool :=
  match c with
  | Api.tag_resource _ [ {| TagKey := k; TagValue := v |} ] =>
      String.eqb k "MigrationStatus" && String.eqb v "completed"
  | Api.untag_resource _ [k] => String.eqb k "MigrationStatus"
  | _ => false
  end.

(** What a request for anything but the replicate action may issue: the
    identity query, and lifecycle calls through the client of [region] on
    the keys of [key_arns], a deletion being scheduled with the window
    [days] only. *)
Definition lifecycle_discipline (region : string) (key_arns : list string)
    (days : Z) (cl : client) (c : Api.call) : Prop :=
  match c with
  | Api.get_caller_identity => cl = sts
  | Api.list_aliases _ | Api.create_alias _ _ | Api.get_key_policy _ _
  | Api.put_key_policy _ _ _ | Api.replicate_key _ _ _ => False
  | _ =>
      cl = session_client boto3_Session "kms" region
      /\ (exists arn, key_of c = Some arn /\ In arn key_arns)
      /\ forall id d, c = Api.schedule_key_deletion id d -> d = days
  end.

(** The calls [replicate_key] issues on the replica. *)
Definition replica_write (c : Api.call) : bool :=
  match c with
  | Api.put_key_policy _ _ _ | Api.create_alias _ _ | Api.tag_resource _ _ =>
      true
  | _ => false
  end.

(** The calls [enable_keys] issues before it removes a tag. *)
Definition before_untag (c : Api.call) : bool :=
  match c with
  | Api.describe_key _ | Api.enable_key _ | Api.list_resource_tags _ => true
  | _ => false
  end.

(** The provider state in which [enable_keys] lists the tags of [arn]:
    after the state was resolved from [w] and the key was enabled. *)
Definition after_enable {W} (provider : provider_of W) (today : string)
    (kms_client : client) (arn : string) (w : W) : W :=
  snd (provider kms_client (Api.enable_key arn)
         (final (run provider today (key_status kms_client arn) w))).

(** ** Concrete requests and provider states *)

Module Scenario.

Definition today : string := "2024-06-01".

(** The client [lambda_handler] builds for a request in [ca-central-1]. *)
Definition kms : client := session_client boto3_Session "kms" "ca-central-1".

Definition tag (k v : string) : Tag := {| TagKey := k; TagValue := v |}.

Definition key_in (s : string) (ts : list Tag) : Kms.key :=
  {| Kms.state := s; Kms.tags := ts; Kms.policy := "{}"; Kms.aliases := [] |}.

(** An account with five keys in [ca-central-1]; [key/missing] is not
    among them. *)
Definition fleet : Kms.world :=
  {| Kms.account := "444455556666";
     Kms.keys :=
       <[("ca-central-1", "key/enabled") := key_in "Enabled" []]>
       (<[("ca-central-1", "key/disabled") :=
            key_in "Disabled" [tag "DisabledOn" "2024-05-01"]]>
        (<[("ca-central-1", "key/rds") :=
             key_in "Disabled"
               [tag "service_name" "rds"; tag "DisabledOn" "2024-05-01"]]>
         (<[("ca-central-1", "key/rds-pending") :=
              key_in "PendingDeletion"
                [tag "service_name" "rds"; tag "DisabledOn" "2024-05-01"]]>
          (<[("ca-central-1", "key/srk") :=
               {| Kms.state := "Enabled";
                  Kms.tags := [tag "MigrationStatus" "completed"];
                  Kms.policy := "{}";
                  Kms.aliases :=
                    [ {| AliasName := "alias_ca-central-1_srk";
                         TargetKeyId := "srk" |} ] |}]> ∅)))) |}.

Definition request_in (region action : string) (key_arns : list string)
    (dry_run : bool) : Event.t :=
  {| Event.aws_region := Some region;
     Event.action := Some action;
     Event.key_arns := Some key_arns;
     Event.dry_run := Some dry_run;
     Event.deletion_schedule_days := None |}.

Definition request (action : string) (key_arns : list string)
    (dry_run : bool) : Event.t :=
  request_in "ca-central-1" action key_arns dry_run.

(** What botocore's validation of arguments refuses before a call reaches
    the service: an empty [KeyId], a [PendingWindowInDays] below 1. *)
Definition invalid (c : Api.call) : bool :=
  match key_of c with
  | Some EmptyString => true
  | _ =>
      match c with
      | Api.schedule_key_deletion _ days => days <? 1
      | _ => false
      end
  end.

(** The reference provider behind that validation: a refused call raises
    [ParamValidationError], which is not a [ClientError]. *)
Definition validating : provider_of Kms.world :=
  {| respond := fun cl c w =>
       if invalid c
       then (Crashed {| exception_class := "ParamValidationError" |}, w)
       else Kms.answer cl c w;
     rejects := Kms.region_check |}.

End Scenario.

(** * Properties *)

(** ** Runs of composed programs *)

Section Runs.
Context {W : Type} (provider : provider_of W) (today : string).

Lemma run_result_eta {A} (r : run_result W A) :
  {| outcome := outcome r; trace := trace r; final := final r |} = r.
Proof. by destruct r. Qed.

Lemma run_bind {A B} (p : prog A) (f : A -> prog B) (w : W) :
  run provider today (bind p f) w
  = and_then (run provider today p w) (fun a => run provider today (f a)).
Proof.
  revert w.
  induction p as [a|e|x|cl c k IH|lvl msg k IH|k IH|session svc region k IH];
    intros w; cbn.
  - unfold and_then; cbn. apply eq_sym, run_result_eta.
  - reflexivity.
  - reflexivity.
  - rewrite IH. unfold and_then, seen; cbn.
    by destruct (outcome (run provider today (k _) _)).
  - rewrite IH. unfold and_then, seen; cbn.
    by destruct (outcome (run provider today k w)).
  - apply IH.
  - destruct (rejects provider region); [done|]. apply IH.
Qed.

Lemma run_try_except {A} (p : prog A) (h : ClientError -> prog A) (w : W) :
  run provider today (try_except p h) w
  = or_else (run provider today p w) (fun e => run provider today (h e)).
Proof.
  revert w.
  induction p as [a|e|x|cl c k IH|lvl msg k IH|k IH|session svc region k IH];
    intros w; cbn.
  - reflexivity.
  - unfold or_else; cbn. apply eq_sym, run_result_eta.
  - reflexivity.
  - rewrite IH. unfold or_else, seen; cbn.
    by destruct (outcome (run provider today (k _) _)).
  - rewrite IH. unfold or_else, seen; cbn.
    by destruct (outcome (run provider today k w)).
  - apply IH.
  - destruct (rejects provider region); [done|]. apply IH.
Qed.

Lemma run_invoke cl c w :
  run provider today (invoke cl c) w
  = {| outcome := fst (provider cl c w);
       trace := [Issued cl c];
       final := snd (provider cl c w) |}.
Proof.
  unfold invoke; cbn. unfold seen.
  by destruct (provider cl c w) as [[v|e|x] w1].
Qed.

Lemma run_key_status cl arn w :
  run provider today (key_status cl arn) w
  = {| outcome :=
         match fst (provider cl (Api.describe_key arn) w) with
         | Returned m => Returned (KeyState m)
         | Failed e =>
             if String.eqb (Code e) "NotFoundException"
             then Returned "NotFound" else Failed e
         | Crashed x => Crashed x
         end;
       trace := [Issued cl (Api.describe_key arn)];
       final := snd (provider cl (Api.describe_key arn) w) |}.
Proof.
  unfold key_status. rewrite run_try_except, run_bind, run_invoke.
  destruct (provider cl (Api.describe_key arn) w) as [[m|e|x] w1];
    unfold or_else, and_then; cbn; [done| |done].
  by destruct (String.eqb (Code e) "NotFoundException").
Qed.

Lemma trace_key_status cl arn w :
  trace (run provider today (key_status cl arn) w)
  = [Issued cl (Api.describe_key arn)].
Proof. by rewrite run_key_status. Qed.

(** A loop runs its iterations one after the other, each from the state
    the previous one left. *)
Lemma run_for_each_cons {X} (body : X -> prog unit) x xs w :
  run provider today (for_each (x :: xs) body) w
  = and_then (run provider today (body x) w)
      (fun _ => run provider today (for_each xs body)).
Proof. cbn [for_each]. apply run_bind. Qed.

Lemma and_then_ext {A B} (r : run_result W A)
    (k1 k2 : A -> W -> run_result W B) :
  (forall a w, k1 a w = k2 a w) -> and_then r k1 = and_then r k2.
Proof.
  intros Hk. unfold and_then. destruct (outcome r); [|done|done].
  by rewrite Hk.
Qed.

Lemma and_then_assoc {A B C} (r : run_result W A)
    (k1 : A -> W -> run_result W B) (k2 : B -> W -> run_result W C) :
  and_then (and_then r k1) k2
  = and_then r (fun a w => and_then (k1 a w) k2).
Proof.
  unfold and_then. destruct (outcome r) as [a|e|x]; cbn; [|done|done].
  destruct (outcome (k1 a (final r))) as [b|e|x]; cbn; [|done|done].
  by rewrite app_assoc.
Qed.

Lemma run_for_each_app {X} (body : X -> prog unit) xs ys w :
  run provider today (for_each (xs ++ ys) body) w
  = and_then (run provider today (for_each xs body) w)
      (fun _ => run provider today (for_each ys body)).
Proof.
  revert w. induction xs as [|x xs IH]; intros w.
  - unfold and_then; cbn. apply eq_sym, run_result_eta.
  - rewrite <- app_comm_cons, !run_for_each_cons, and_then_assoc.
    apply and_then_ext. intros _ w'. apply IH.
Qed.

End Runs.

(** ** Cancelling a scheduled deletion *)

Section Cancel.
Context {W : Type} (provider : provider_of W) (today : string).

(** C5.  For one key, [cancel_key_deletion] issues the provider's
    [cancel_key_deletion] exactly when the resolved state is
    [PendingDeletion] or [PendingReplicaDeletion]; in any other resolved
    state it only describes the key, logs that there is nothing to cancel,
    issues no mutating call and leaves the provider where the state
    resolution left it. *)
Theorem cancel_deletion_only_when_pending (cl : client) (arn : string) (w : W) :
  let r := run provider today (cancel_key_deletion_body cl arn) w in
  (issues cl (Api.cancel_key_deletion arn) (trace r)
   <-> resolved provider today cl arn w = Returned "PendingDeletion"
       \/ resolved provider today cl arn w = Returned "PendingReplicaDeletion")
  /\ (forall s,
        resolved provider today cl arn w = Returned s ->
        s <> "PendingDeletion" -> s <> "PendingReplicaDeletion" ->
        trace r
        = [Issued cl (Api.describe_key arn);
           Logged INFO
             ("Key " +:+ arn
              +:+ " is not scheduled for deletion — nothing to cancel.")]
        /\ mutates (trace r) = false
        /\ final r = final (run provider today (key_status cl arn) w)).
Proof.
  cbn zeta. unfold resolved, cancel_key_deletion_body.
  rewrite run_try_except, run_bind.
  destruct (run provider today (key_status cl arn) w) as [o tr w1] eqn:Hks.
  pose proof (trace_key_status provider today cl arn w) as Htr.
  rewrite Hks in Htr; cbn in Htr; subst tr.
  unfold or_else, and_then, issues; cbn.
  destruct o as [s|e|x]; cbn.
  - unfold pending_deletion; cbn.
    destruct (String.eqb_spec s "PendingDeletion") as [->|H1]; cbn.
    { destruct (provider cl (Api.cancel_key_deletion arn) w1) as [[[]|e|x] w2];
        cbn; (split; [split; [by left | intros _; right; by left]
                     | by intros ? [= <-] ??]). }
    destruct (String.eqb_spec s "PendingReplicaDeletion") as [->|H2]; cbn.
    { destruct (provider cl (Api.cancel_key_deletion arn) w1) as [[[]|e|x] w2];
        cbn; (split; [split; [by right | intros _; right; by left]
                     | by intros ? [= <-] ??]). }
    split; [|by intros ? [= <-] ??].
    split; [|intros [[=]|[=]]; congruence].
    intros [[=]|[[=]|[]]].
  - split; [|done].
    split; [|by intros [|]].
    intros [[=]|[[=]|[]]].
  - split; [|done].
    split; [|by intros [|]].
    intros [[=]|[]].
Qed.

End Cancel.

(** ** What a program can issue, whatever the provider answers *)

Section Static.
Context {W : Type} (provider : provider_of W) (today : string).

Lemma only_observes_weaken {A} (P Q : observation -> Prop) (p : prog A) :
  (forall o, P o -> Q o) -> only_observes P p -> only_observes Q p.
Proof.
  intros HPQ.
  induction p as [a|e|x|cl c k IH|lvl msg k IH|k IH|session svc region k IH];
    cbn; auto.
  - intros [Hc Hk]. split; auto.
  - intros [Hc Hk]. split; auto.
Qed.

Lemma only_observes_bind {A B} P (p : prog A) (f : A -> prog B) :
  only_observes P p -> (forall a, only_observes P (f a)) ->
  only_observes P (bind p f).
Proof.
  intros Hp Hf.
  induction p as [a|e|x|cl c k IH|lvl msg k IH|k IH|session svc region k IH];
    cbn in *; auto.
  - destruct Hp as [Hc Hk]. split; auto.
  - destruct Hp as [Hc Hk]. split; auto.
Qed.

Lemma only_observes_try_except {A} P (p : prog A) (h : ClientError -> prog A) :
  only_observes P p -> (forall e, only_observes P (h e)) ->
  only_observes P (try_except p h).
Proof.
  intros Hp Hh.
  induction p as [a|e|x|cl c k IH|lvl msg k IH|k IH|session svc region k IH];
    cbn in *; auto.
  - destruct Hp as [Hc Hk]. split; auto.
  - destruct Hp as [Hc Hk]. split; auto.
Qed.

Lemma only_observes_build {A} P session svc region (f : client -> prog A) :
  only_observes P (f (session_client session svc region)) ->
  only_observes P (bind (build_client session svc region) f).
Proof. done. Qed.

Lemma only_observes_invoke P cl c :
  P (Issued cl c) -> only_observes P (invoke cl c).
Proof. intros Hc. split; [done|]. by intros [v|e|x]. Qed.

Lemma only_observes_logger P lvl msg :
  P (Logged lvl msg) -> only_observes P (logger lvl msg).
Proof. by split. Qed.

Lemma only_observes_for_each {X} P (xs : list X) (body : X -> prog unit) :
  (forall x, only_observes P (body x)) -> only_observes P (for_each xs body).
Proof.
  intros Hb. induction xs as [|x xs IH]; cbn; [done|].
  by apply only_observes_bind.
Qed.

Lemma only_observes_key_status P cl arn :
  P (Issued cl (Api.describe_key arn)) -> only_observes P (key_status cl arn).
Proof.
  intros Hc. apply only_observes_try_except.
  - apply only_observes_bind; [by apply only_observes_invoke | done].
  - intros e. by destruct (String.eqb (Code e) "NotFoundException").
Qed.

(** The observations of a run are among those the program can make. *)
Lemma only_observes_run {A} P (p : prog A) (w : W) :
  only_observes P p -> Forall P (trace (run provider today p w)).
Proof.
  revert w.
  induction p as [a|e|x|cl c k IH|lvl msg k IH|k IH|session svc region k IH];
    intros w Hp; cbn in *; try by constructor.
  - destruct Hp as [Hc Hk]. constructor; [done|]. by apply IH.
  - destruct Hp as [Hc Hk]. constructor; [done|]. by apply IH.
  - by apply IH.
  - destruct (rejects provider region); [by constructor|]. by apply IH.
Qed.

Lemma only_calls_run {A} P (p : prog A) (w : W) :
  only_calls P p -> all_calls P (trace (run provider today p w)).
Proof. apply only_observes_run. Qed.

(** A program whose calls all leave the provider state alone ends in the
    state it started from. *)
Lemma only_calls_final {A} (P : client -> Api.call -> Prop) (p : prog A) (w : W) :
  (forall cl c w', P cl c -> snd (provider cl c w') = w') ->
  only_calls P p -> final (run provider today p w) = w.
Proof.
  intros Hpure. revert w. unfold only_calls.
  induction p as [a|e|x|cl c k IH|lvl msg k IH|k IH|session svc region k IH];
    intros w Hp; cbn in *; try done.
  - destruct Hp as [Hc Hk]. rewrite IH by done. by apply Hpure.
  - destruct Hp as [_ Hk]. by apply IH.
  - by apply IH.
  - destruct (rejects provider region); [done|]. by apply IH.
Qed.

Lemma all_calls_issues P cl c (tr : list observation) :
  all_calls P tr -> issues cl c tr -> P cl c.
Proof.
  unfold all_calls, issues. rewrite Forall_forall.
  intros Hall Hin. apply (Hall (Issued cl c)). by apply list_elem_of_In.
Qed.









Lemma catches_bind {A B} (p : prog A) (f : A -> prog B) :
  catches p -> (forall a, catches (f a)) -> catches (bind p f).
Proof.
  intros Hp Hf.
  induction p as [a|e|x|cl c k IH|lvl msg k IH|k IH|session svc region k IH];
    cbn in *; auto.
Qed.

Lemma catches_try_except {A} (p : prog A) (h : ClientError -> prog A) :
  (forall e, catches (h e)) -> catches (try_except p h).
Proof.
  intros Hh.
  induction p as [a|e|x|cl c k IH|lvl msg k IH|k IH|session svc region k IH];
    cbn in *; auto.
Qed.

Lemma catches_for_each {X} (xs : list X) (body : X -> prog unit) :
  (forall x, catches (body x)) -> catches (for_each xs body).
Proof.
  intros Hb. induction xs as [|x xs IH]; cbn; [done|].
  by apply catches_bind.
Qed.

Lemma catches_run {A} (p : prog A) (w : W) :
  catches p -> forall e, outcome (run provider today p w) <> Failed e.
Proof.
  intros Hp. revert w.
  induction p as [a|e|x|cl c k IH|lvl msg k IH|k IH|session svc region k IH];
    intros w e'; cbn in *; try done; auto.
  destruct (rejects provider region); [done|]. by apply IH.
Qed.



End Static.

(** Walks a program built from the source's combinators, leaving the
    side conditions on individual calls. *)
Ltac walk :=
  unfold only_calls;
  repeat match goal with
    | |- forall _, _ => intro
    | |- only_observes _ (try_except _ _) => apply only_observes_try_except
    | |- only_observes _ (bind (build_client _ _ _) _) =>
        apply only_observes_build
    | |- only_observes _ (bind _ _) => apply only_observes_bind
    | |- only_observes _ (for_each _ _) => apply only_observes_for_each
    | |- only_observes _ (key_status _ _) => apply only_observes_key_status
    | |- only_observes _ (invoke _ _) => apply only_observes_invoke
    | |- only_observes _ (logger _ _) => apply only_observes_logger
    | |- only_observes _ (if ?b then _ else _) => destruct b
    | |- only_observes _ (match ?x with _ => _ end) => destruct x
    | |- only_observes _ (Ret _) => exact I
    end.

(** Splits a membership in an explicit trace into its cases. *)
Ltac member H :=
  unfold issues, reports in H; cbn -[secondary_alias_of] in H;
  repeat (destruct H as [H|H];
          [ try (match type of H with
                 | match ?x with _ => _ end = _ => destruct x
                 end);
            simplify_eq; try done
          | ]);
  try done.

(** ** Dry runs *)

Section DryRun.
Context {W : Type} (provider : provider_of W) (today : string).

Lemma disable_keys_dry_run_reads cl key_arns :
  only_calls reads_only (disable_keys cl key_arns true).
Proof. unfold disable_keys, disable_keys_body. walk; done. Qed.

Lemma schedule_key_deletion_dry_run_reads cl key_arns days :
  only_calls reads_only (schedule_key_deletion cl key_arns days true).
Proof. unfold schedule_key_deletion, schedule_key_deletion_body. walk; done. Qed.

Lemma replicate_ireland_dry_run_reads session cl key_arns :
  only_calls reads_only (replicate_ireland session cl key_arns true).
Proof.
  unfold replicate_ireland, replicate_ireland_body, get_primary_alias,
    replicate_key.
  walk; done.
Qed.

Lemma replicate_key_dry_run_reads session arn alias region :
  only_calls reads_only (replicate_key session arn alias region true).
Proof. unfold replicate_key. walk; done. Qed.

Lemma reads_only_not_mutating (tr : list observation) :
  all_calls reads_only tr -> mutates tr = false.
Proof.
  unfold all_calls, mutates.
  induction 1 as [|[cl c|lvl msg] l Hc _ IH]; cbn; [done| |done].
  rewrite IH. by destruct c.
Qed.

(** C3.  With [dry_run] set, [disable_keys], [schedule_key_deletion], the
    replicate action and [replicate_key] itself issue only [describe_key],
    [list_resource_tags], [get_key_policy] and [list_aliases], hence no
    mutating call, over any list of keys and against any provider; and
    when the provider's read-only operations leave its state alone, the
    state after the operation is the state before it. *)
Theorem dry_run_issues_only_reads (session : Session) (cl : client)
    (key_arns : list string) (days : Z) (arn alias region : string) (w : W) :
  let disable := run provider today (disable_keys cl key_arns true) w in
  let schedule :=
    run provider today (schedule_key_deletion cl key_arns days true) w in
  let replicate :=
    run provider today (replicate_ireland session cl key_arns true) w in
  let replica :=
    run provider today (replicate_key session arn alias region true) w in
  (all_calls reads_only (trace disable)
   /\ all_calls reads_only (trace schedule)
   /\ all_calls reads_only (trace replicate)
   /\ all_calls reads_only (trace replica))
  /\ (mutates (trace disable) = false
      /\ mutates (trace schedule) = false
      /\ mutates (trace replicate) = false
      /\ mutates (trace replica) = false)
  /\ ((forall cl' c w', Api.read_only c = true -> snd (provider cl' c w') = w') ->
      final disable = w /\ final schedule = w /\ final replicate = w
      /\ final replica = w).
Proof.
  cbn zeta.
  pose proof (disable_keys_dry_run_reads cl key_arns) as Hd.
  pose proof (schedule_key_deletion_dry_run_reads cl key_arns days) as Hs.
  pose proof (replicate_ireland_dry_run_reads session cl key_arns) as Hr.
  pose proof (replicate_key_dry_run_reads session arn alias region) as Hk.
  split; [|split].
  - repeat split; by apply only_calls_run.
  - repeat split; by apply reads_only_not_mutating, only_calls_run.
  - intros Hpure.
    repeat split; by apply (only_calls_final provider today reads_only).
Qed.

End DryRun.

(** ** Replication *)

Section Replication.
Context {W : Type} (provider : provider_of W) (today : string).

Lemma replicate_key_static session arn c a dry_run region :
  only_calls (replicate_discipline region)
    (replicate_key session arn (String c a) "eu-west-1" dry_run).
Proof.
  unfold replicate_key. destruct session.
  walk; first [exact I | reflexivity | split; reflexivity].
Qed.

Lemma replicate_ireland_static session region key_arns dry_run :
  only_calls (replicate_discipline region)
    (replicate_ireland session (session_client session "kms" region)
       key_arns dry_run).
Proof.
  unfold replicate_ireland, replicate_ireland_body, get_primary_alias.
  destruct session. walk; try first [exact I | reflexivity].
  apply replicate_key_static.
Qed.

Lemma find_first {X} (f : X -> bool) (pre : list X) (a : X) (post : list X) :
  Forall (fun x => f x = false) pre -> f a = true ->
  List.find f (pre ++ a :: post) = Some a.
Proof.
  intros Hpre Ha. induction Hpre as [|x pre Hx _ IH]; cbn.
  - by rewrite Ha.
  - by rewrite Hx.
Qed.

Lemma find_none {X} (f : X -> bool) (l : list X) :
  Forall (fun x => f x = false) l -> List.find f l = None.
Proof.
  induction 1 as [|x l Hx _ IH]; cbn; [done|]. by rewrite Hx.
Qed.

Lemma run_get_primary_alias cl arn w :
  run provider today (get_primary_alias cl arn) w
  = let answer := provider cl (Api.list_aliases arn) w in
    match fst answer with
    | Returned aliases =>
        {| outcome :=
             Returned
               (AliasName <$>
                  List.find
                    (fun alias => String.eqb (TargetKeyId alias) (key_id arn))
                    aliases);
           trace := [Issued cl (Api.list_aliases arn)];
           final := snd answer |}
    | Failed e =>
        {| outcome := Returned None;
           trace := [Issued cl (Api.list_aliases arn);
                     Logged ERROR
                       ("Error getting alias for key " +:+ arn +:+ ": "
                        +:+ rendered e)];
           final := snd answer |}
    | Crashed x =>
        {| outcome := Crashed x;
           trace := [Issued cl (Api.list_aliases arn)];
           final := snd answer |}
    end.
Proof.
  unfold get_primary_alias. cbn.
  destruct (provider cl (Api.list_aliases arn) w) as [[aliases|e|x] w1]; cbn;
    [|done|done].
  by destruct (List.find _ aliases).
Qed.

(** C9.  [get_primary_alias] returns the name of the first alias listed
    for the key whose target is the key's identifier (the last
    [/]-separated part of the ARN), and [None] when no listed alias has
    that target; and whenever it returns [None], the replicate action
    logs the skip as a warning and issues nothing for that key beyond the
    alias lookup. *)
Theorem primary_alias_is_first_match (session : Session) (cl : client)
    (arn : string) (dry_run : bool) (w : W) :
  let lookup := run provider today (get_primary_alias cl arn) w in
  let replicate :=
    run provider today
      (replicate_ireland_body session cl "eu-west-1" dry_run arn) w in
  (forall aliases,
     fst (provider cl (Api.list_aliases arn) w) = Returned aliases ->
     (forall pre a post,
        aliases = pre ++ a :: post ->
        Forall (fun x => TargetKeyId x <> key_id arn) pre ->
        TargetKeyId a = key_id arn ->
        outcome lookup = Returned (Some (AliasName a)))
     /\ (Forall (fun x => TargetKeyId x <> key_id arn) aliases ->
         outcome lookup = Returned None))
  /\ (outcome lookup = Returned None ->
      trace replicate
      = trace lookup
        ++ [Logged WARNING
              ("No alias found for " +:+ arn +:+ ", skipping replication.")]
      /\ (forall cl' c, issues cl' c (trace replicate) ->
          cl' = cl /\ c = Api.list_aliases arn)
      /\ mutates (trace replicate) = false).
Proof.
  cbn zeta. split.
  - intros aliases Hlist. rewrite run_get_primary_alias.
    destruct (provider cl (Api.list_aliases arn) w) as [[al|e|x] w1];
      cbn in Hlist; [|done|done].
    injection Hlist as ->. cbn. split.
    + intros pre a post -> Hpre Ha.
      rewrite (find_first _ pre a post); [done| |by apply String.eqb_eq].
      eapply Forall_impl; [exact Hpre|].
      intros x Hx. by apply String.eqb_neq.
    + intros Hnone. rewrite find_none; [done|].
      eapply Forall_impl; [exact Hnone|].
      intros x Hx. by apply String.eqb_neq.
  - unfold replicate_ireland_body. rewrite run_bind.
    destruct (run provider today (get_primary_alias cl arn) w)
      as [o tr w1] eqn:Hrun.
    rewrite run_get_primary_alias in Hrun.
    intros Ho; cbn in Ho; subst o. unfold and_then; cbn.
    split; [done|].
    destruct (provider cl (Api.list_aliases arn) w) as [[aliases|e|x] w2];
      simplify_eq/=.
    + split; [|done]. unfold issues; cbn. intros cl' c [[= -> ->]|[[=]|[]]].
      done.
    + split; [|done]. unfold issues; cbn.
      intros cl' c [[= -> ->]|[[=]|[[=]|[]]]]. done.
Qed.

End Replication.

(** ** Scheduling a deletion *)

Section Schedule.
Context {W : Type} (provider : provider_of W) (today : string).

Lemma next_tag_none key tags :
  next_tag key tags = None <-> any_tag key tags = false.
Proof.
  unfold next_tag, any_tag. induction tags as [|t tags IH]; cbn; [done|].
  destruct (String.eqb (TagKey t) key); cbn; [|done]. by split.
Qed.

Lemma schedule_key_deletion_body_static cl days dry_run arn :
  only_calls
    (fun cl' c =>
       cl' = cl
       /\ (c = Api.describe_key arn \/ c = Api.list_resource_tags arn
           \/ c = Api.schedule_key_deletion arn days))
    (schedule_key_deletion_body cl days dry_run arn).
Proof. unfold schedule_key_deletion_body. walk; cbn; tauto. Qed.

(** The run of one iteration, by what the provider answered. *)
Lemma schedule_cases cl days dry_run arn w :
  let r := run provider today (schedule_key_deletion_body cl days dry_run arn) w in
  let w1 := final (run provider today (key_status cl arn) w) in
  let describe := Issued cl (Api.describe_key arn) in
  let list := Issued cl (Api.list_resource_tags arn) in
  match resolved provider today cl arn w with
  | Crashed x => trace r = [describe] /\ final r = w1
  | Failed e =>
      exists lvl msg, trace r = [describe; Logged lvl msg] /\ final r = w1
  | Returned s =>
      if String.eqb s "PendingDeletion"
      then trace r
           = [describe;
              Logged INFO ("Key " +:+ arn +:+ " already scheduled for deletion.")]
           /\ final r = w1
      else
        match listed_tags provider today cl arn w with
        | Crashed x => trace r = [describe; list]
        | Failed e =>
            trace r
            = [describe; list;
               if String.eqb (Code e) "NotFoundException"
               then Logged INFO ("Key " +:+ arn +:+ " not found.")
               else Logged ERROR
                      ("Failed to schedule deletion for key " +:+ arn +:+ ": "
                       +:+ rendered e)]
        | Returned tags =>
            if in_excluded_service (next_tag "service_name" tags)
            then trace r
                 = [describe; list;
                    Logged WARNING
                      ("Key " +:+ arn +:+ " is in use by "
                       +:+ from_option TagValue "" (next_tag "service_name" tags)
                       +:+ " — skipping deletion.")]
            else if any_tag "DisabledOn" tags
            then if dry_run
                 then trace r
                      = [describe; list;
                         Logged INFO
                           ("Key " +:+ arn
                            +:+ " would be scheduled for deletion in "
                            +:+ PyStr.of_int days +:+ " days. (Dry Run)")]
                 else exists logs,
                        trace r
                        = [describe; list;
                           Issued cl (Api.schedule_key_deletion arn days)]
                          ++ logs
                        /\ mutates logs = false
            else trace r
                 = [describe; list;
                    Logged INFO
                      ("Key " +:+ arn +:+ " is not disabled — skipping deletion.")]
        end
  end.
Proof.
  cbn zeta. unfold resolved, listed_tags, schedule_key_deletion_body.
  rewrite run_try_except, run_bind.
  destruct (run provider today (key_status cl arn) w) as [o tr w1] eqn:Hks.
  pose proof (trace_key_status provider today cl arn w) as Htr.
  rewrite Hks in Htr; cbn in Htr; subst tr.
  unfold or_else, and_then; cbn.
  destruct o as [s|e|x]; cbn; [| |done].
  2:{ destruct (String.eqb (Code e) "NotFoundException"); cbn; eauto. }
  destruct (String.eqb s "PendingDeletion"); cbn; [done|].
  destruct (provider cl (Api.list_resource_tags arn) w1) as [[tags|e|x] w2];
    cbn; [| |done].
  2:{ by destruct (String.eqb (Code e) "NotFoundException"). }
  destruct (in_excluded_service (next_tag "service_name" tags)); cbn; [done|].
  destruct (any_tag "DisabledOn" tags) eqn:Hany.
  - destruct (next_tag "DisabledOn" tags) eqn:Hnext;
      [|by apply next_tag_none in Hnext; congruence].
    destruct dry_run; cbn; [done|].
    destruct (provider cl (Api.schedule_key_deletion arn days) w2)
      as [[[]|e|x] w3]; cbn; [by eexists [_]| |by exists []].
    destruct (String.eqb (Code e) "NotFoundException"); cbn; by eexists [_].
  - apply next_tag_none in Hany. by rewrite Hany.
Qed.

(** C4.  For one key, [schedule_key_deletion] issues the provider's
    [schedule_key_deletion] with the given window exactly when the state
    resolves to something other than [PendingDeletion], the tags the
    provider lists carry no [service_name] in the exclusion set, they
    carry [DisabledOn], and [dry_run] is off, whatever that state is; it
    issues it for no other key or window.  A key resolved as
    [PendingDeletion] is logged as already scheduled and skipped before
    its tags are read; a key without [DisabledOn] is logged as not
    disabled and skipped. *)
Theorem schedule_deletion_iff (cl : client) (arn : string) (days : Z)
    (dry_run : bool) (w : W) :
  let r := run provider today (schedule_key_deletion_body cl days dry_run arn) w in
  (issues cl (Api.schedule_key_deletion arn days) (trace r)
   <-> exists s tags,
         resolved provider today cl arn w = Returned s
         /\ s <> "PendingDeletion"
         /\ listed_tags provider today cl arn w = Returned tags
         /\ in_excluded_service (next_tag "service_name" tags) = false
         /\ any_tag "DisabledOn" tags = true
         /\ dry_run = false)
  /\ (forall cl' id days',
        issues cl' (Api.schedule_key_deletion id days') (trace r) ->
        cl' = cl /\ id = arn /\ days' = days)
  /\ (resolved provider today cl arn w = Returned "PendingDeletion" ->
      trace r
      = [Issued cl (Api.describe_key arn);
         Logged INFO ("Key " +:+ arn +:+ " already scheduled for deletion.")])
  /\ (forall s tags,
        resolved provider today cl arn w = Returned s ->
        s <> "PendingDeletion" ->
        listed_tags provider today cl arn w = Returned tags ->
        in_excluded_service (next_tag "service_name" tags) = false ->
        any_tag "DisabledOn" tags = false ->
        trace r
        = [Issued cl (Api.describe_key arn);
           Issued cl (Api.list_resource_tags arn);
           Logged INFO
             ("Key " +:+ arn +:+ " is not disabled — skipping deletion.")]).
Proof.
  cbn zeta.
  pose proof (schedule_cases cl days dry_run arn w) as Hc. cbn zeta in Hc.
  split; [|split; [|split]].
  - destruct (resolved provider today cl arn w) as [s|e|x].
    2:{ destruct Hc as (lvl & msg & -> & _).
        split; [by intros [[=]|[[=]|[]]] | by intros (?&?&?&_)]. }
    2:{ destruct Hc as [-> _].
        split; [by intros [[=]|[]] | by intros (?&?&?&_)]. }
    destruct (String.eqb_spec s "PendingDeletion") as [Heq|Hs].
    { destruct Hc as [-> _].
      split; [by intros [[=]|[[=]|[]]] | by intros (?&?&[= <-]&?&_)]. }
    destruct (listed_tags provider today cl arn w) as [tags|e|x].
    2:{ rewrite Hc.
        split; [|by intros (?&?&?&?&?&_)].
        by destruct (String.eqb (Code e) "NotFoundException");
          intros [[=]|[[=]|[[=]|[]]]]. }
    2:{ rewrite Hc.
        split; [by intros [[=]|[[=]|[]]] | by intros (?&?&?&?&?&_)]. }
    destruct (in_excluded_service (next_tag "service_name" tags)) eqn:Hex.
    { rewrite Hc.
      split; [by intros [[=]|[[=]|[[=]|[]]]]|].
      intros (?&?&?&?&[= <-]&?&_). congruence. }
    destruct (any_tag "DisabledOn" tags) eqn:Hany.
    2:{ rewrite Hc.
        split; [by intros [[=]|[[=]|[[=]|[]]]]|].
        intros (?&?&?&?&[= <-]&?&?&_). congruence. }
    destruct dry_run.
    { rewrite Hc.
      split; [by intros [[=]|[[=]|[[=]|[]]]]|].
      by intros (?&?&?&?&?&?&?&?). }
    destruct Hc as (logs & -> & _).
    split; [intros _; by exists s, tags|].
    intros _. right. right. by left.
  - intros cl' id days' Hin.
    pose proof (only_calls_run provider today _ _ w
                  (schedule_key_deletion_body_static cl days dry_run arn))
      as Hall.
    destruct (all_calls_issues _ _ _ _ Hall Hin) as [-> [[=]|[[=]|[= -> ->]]]].
    done.
  - intros Hres. rewrite Hres in Hc. by destruct Hc as [-> _].
  - intros s tags Hres Hs Hl Hex Hany.
    rewrite Hres, Hl, Hex, Hany in Hc.
    by destruct (String.eqb_spec s "PendingDeletion").
Qed.

(** C2 (amended).  When the tags the provider lists for a key carry a
    [service_name] in the exclusion set, [schedule_key_deletion] issues no
    provider [schedule_key_deletion] and no other mutating call, with or
    without [DisabledOn] and for either value of [dry_run].  The key is
    skipped with a warning whenever its state resolves to something other
    than [PendingDeletion]; a key resolved as [PendingDeletion] is logged
    as already scheduled, at level INFO, before its tags are read. *)
Theorem excluded_service_never_scheduled (cl : client) (arn : string)
    (days : Z) (dry_run : bool) (w : W) (tags : list Tag) :
  listed_tags provider today cl arn w = Returned tags ->
  in_excluded_service (next_tag "service_name" tags) = true ->
  let r := run provider today (schedule_key_deletion_body cl days dry_run arn) w in
  (forall cl' id days',
     ~ issues cl' (Api.schedule_key_deletion id days') (trace r))
  /\ mutates (trace r) = false
  /\ (forall s,
        resolved provider today cl arn w = Returned s ->
        s <> "PendingDeletion" ->
        trace r
        = [Issued cl (Api.describe_key arn);
           Issued cl (Api.list_resource_tags arn);
           Logged WARNING
             ("Key " +:+ arn +:+ " is in use by "
              +:+ from_option TagValue "" (next_tag "service_name" tags)
              +:+ " — skipping deletion.")])
  /\ (resolved provider today cl arn w = Returned "PendingDeletion" ->
      trace r
      = [Issued cl (Api.describe_key arn);
         Logged INFO ("Key " +:+ arn +:+ " already scheduled for deletion.")]).
Proof.
  intros Hl Hex. cbn zeta.
  pose proof (schedule_cases cl days dry_run arn w) as Hc. cbn zeta in Hc.
  rewrite Hl, Hex in Hc.
  destruct (resolved provider today cl arn w) as [s|e|x].
  - destruct (String.eqb_spec s "PendingDeletion") as [Heq|Hs].
    + destruct Hc as [-> _]. split; [|split; [|split]]; try done.
      * by intros cl' id days' [[=]|[[=]|[]]].
      * intros s' [= <-] Hs'. congruence.
    + rewrite Hc. split; [|split; [|split]]; try done.
      * by intros cl' id days' [[=]|[[=]|[[=]|[]]]].
      * intros [= Heq]. congruence.
  - destruct Hc as (lvl & msg & -> & _). split; [|split; [|split]]; try done.
    by intros cl' id days' [[=]|[[=]|[]]].
  - destruct Hc as [-> _]. split; [|split; [|split]]; try done.
    by intros cl' id days' [[=]|[]].
Qed.

End Schedule.

(** ** Keys that do not exist *)

Section NotFound.
Context {W : Type} (provider : provider_of W) (today : string).

Lemma run_disable_keys_body cl arn w :
  run provider today (disable_keys_body cl false arn) w
  = let disabled := provider cl (Api.disable_key arn) w in
    let failure e :=
      Logged ERROR ("Failed to disable key " +:+ arn +:+ ": " +:+ rendered e) in
    let tag :=
      Api.tag_resource arn [ {| TagKey := "DisabledOn"; TagValue := today |} ] in
    match fst disabled with
    | Crashed x =>
        {| outcome := Crashed x;
           trace := [Issued cl (Api.disable_key arn)];
           final := snd disabled |}
    | Failed e =>
        {| outcome := Returned tt;
           trace := [Issued cl (Api.disable_key arn); failure e];
           final := snd disabled |}
    | Returned _ =>
        let tagged := provider cl tag (snd disabled) in
        match fst tagged with
        | Crashed x =>
            {| outcome := Crashed x;
               trace := [Issued cl (Api.disable_key arn); Issued cl tag];
               final := snd tagged |}
        | Returned _ =>
            {| outcome := Returned tt;
               trace :=
                 [Issued cl (Api.disable_key arn); Issued cl tag;
                  Logged INFO ("Key " +:+ arn +:+ " disabled")];
               final := snd tagged |}
        | Failed e =>
            {| outcome := Returned tt;
               trace :=
                 [Issued cl (Api.disable_key arn); Issued cl tag; failure e];
               final := snd tagged |}
        end
    end.
Proof.
  unfold disable_keys_body; cbn.
  destruct (provider cl (Api.disable_key arn) w) as [[[]|e|x] w1]; cbn;
    [|done|done].
  by destruct (provider cl (Api.tag_resource arn _) w1) as [[[]|e|x] w2].
Qed.

(** C1 (amended).  For a key whose state resolves to [NotFound]:
    [enable_keys] and a dry-run [disable_keys] only describe the key and
    log that it was not found; [cancel_key_deletion] only describes it and
    logs that there is nothing to cancel; [schedule_key_deletion], for
    either value of [dry_run], only describes it and lists its tags and
    logs that it was not found, once that listing fails with
    [NotFoundException].  [disable_keys] without [dry_run] does not
    resolve the state: its first call is the provider's [disable_key],
    and it logs a failure when the provider refuses it. *)
Theorem not_found_keys_are_left_alone (cl : client) (arn : string)
    (days : Z) (dry_run : bool) (w : W) :
  resolved provider today cl arn w = Returned "NotFound" ->
  let describe := Issued cl (Api.describe_key arn) in
  trace (run provider today (enable_keys_body cl arn) w)
  = [describe; Logged INFO ("Key " +:+ arn +:+ " not found")]
  /\ trace (run provider today (disable_keys_body cl true arn) w)
     = [describe; Logged INFO ("Key " +:+ arn +:+ " not found. (Dry Run)")]
  /\ trace (run provider today (cancel_key_deletion_body cl arn) w)
     = [describe;
        Logged INFO
          ("Key " +:+ arn
           +:+ " is not scheduled for deletion — nothing to cancel.")]
  /\ (forall e,
        listed_tags provider today cl arn w = Failed e ->
        Code e = "NotFoundException" ->
        trace (run provider today
                 (schedule_key_deletion_body cl days dry_run arn) w)
        = [describe; Issued cl (Api.list_resource_tags arn);
           Logged INFO ("Key " +:+ arn +:+ " not found.")])
  /\ (exists rest,
        trace (run provider today (disable_keys_body cl false arn) w)
        = Issued cl (Api.disable_key arn) :: rest)
  /\ (forall e,
        fst (provider cl (Api.disable_key arn) w) = Failed e ->
        trace (run provider today (disable_keys_body cl false arn) w)
        = [Issued cl (Api.disable_key arn);
           Logged ERROR
             ("Failed to disable key " +:+ arn +:+ ": " +:+ rendered e)]).
Proof.
  intros Hres. cbn zeta.
  pose proof (trace_key_status provider today cl arn w) as Htr.
  unfold resolved in Hres.
  repeat split.
  - unfold enable_keys_body. rewrite run_try_except, run_bind.
    unfold or_else, and_then. by rewrite Hres, Htr.
  - unfold disable_keys_body. rewrite run_bind.
    unfold and_then. by rewrite Hres, Htr.
  - unfold cancel_key_deletion_body. rewrite run_try_except, run_bind.
    unfold or_else, and_then. by rewrite Hres, Htr.
  - intros e Hl Hcode.
    pose proof (schedule_cases provider today cl days dry_run arn w) as Hc.
    cbn zeta in Hc. unfold resolved in Hc. rewrite Hres, Hl, Hcode in Hc.
    exact Hc.
  - rewrite run_disable_keys_body. cbn zeta.
    destruct (fst (provider cl (Api.disable_key arn) w)); eauto.
    destruct (fst (provider cl (Api.tag_resource arn _) _)); eauto.
  - intros e He. rewrite run_disable_keys_body. cbn zeta. by rewrite He.
Qed.

End NotFound.

(** ** Enabling a key *)

Lemma append_inj_l (s a b : string) : s +:+ a = s +:+ b -> a = b.
Proof. induction s as [|c s IH]; cbn; [done|]. intros [= H]. by apply IH. Qed.

Section Enable.
Context {W : Type} (provider : provider_of W) (today : string).

(** The run of one iteration, by what the provider answered. *)
Lemma enable_cases cl arn w :
  let r := run provider today (enable_keys_body cl arn) w in
  let w1 := final (run provider today (key_status cl arn) w) in
  let describe := Issued cl (Api.describe_key arn) in
  let enable := Issued cl (Api.enable_key arn) in
  let list := Issued cl (Api.list_resource_tags arn) in
  let untag := Issued cl (Api.untag_resource arn ["DisabledOn"]) in
  let failure e :=
    Logged ERROR ("Failed to enable key " +:+ arn +:+ ": " +:+ rendered e) in
  let success := Logged INFO ("Key " +:+ arn +:+ " enabled") in
  match resolved provider today cl arn w with
  | Crashed x => trace r = [describe] /\ final r = w1
  | Failed e => trace r = [describe; failure e] /\ final r = w1
  | Returned s =>
      if String.eqb s "NotFound"
      then trace r = [describe; Logged INFO ("Key " +:+ arn +:+ " not found")]
           /\ final r = w1
      else
        let enabled := provider cl (Api.enable_key arn) w1 in
        match fst enabled with
        | Crashed x => trace r = [describe; enable] /\ final r = snd enabled
        | Failed e =>
            trace r = [describe; enable; failure e] /\ final r = snd enabled
        | Returned _ =>
            let listed := provider cl (Api.list_resource_tags arn) (snd enabled) in
            match fst listed with
            | Crashed x =>
                trace r = [describe; enable; list] /\ final r = snd listed
            | Failed e =>
                trace r = [describe; enable; list; failure e]
                /\ final r = snd listed
            | Returned tags =>
                if any_tag "DisabledOn" tags
                then
                  let untagged :=
                    provider cl (Api.untag_resource arn ["DisabledOn"])
                      (snd listed) in
                  trace r
                  = [describe; enable; list; untag]
                    ++ match fst untagged with
                       | Returned _ => [success]
                       | Failed e => [failure e]
                       | Crashed x => []
                       end
                  /\ final r = snd untagged
                else trace r = [describe; enable; list; success]
                     /\ final r = snd listed
            end
        end
  end.
Proof.
  cbn zeta. unfold resolved, enable_keys_body.
  rewrite run_try_except, run_bind.
  destruct (run provider today (key_status cl arn) w) as [o tr w1] eqn:Hks.
  pose proof (trace_key_status provider today cl arn w) as Htr.
  rewrite Hks in Htr; cbn in Htr; subst tr.
  unfold or_else, and_then; cbn.
  destruct o as [s|e|x]; cbn; [|done|done].
  destruct (String.eqb s "NotFound"); cbn; [done|].
  destruct (provider cl (Api.enable_key arn) w1) as [[[]|e|x] w2]; cbn;
    [|done|done].
  destruct (provider cl (Api.list_resource_tags arn) w2) as [[tags|e|x] w3];
    cbn; [|done|done].
  destruct (any_tag "DisabledOn" tags); cbn; [|done].
  by destruct (provider cl (Api.untag_resource arn ["DisabledOn"]) w3)
    as [[[]|e|x] w4].
Qed.

(** What a run that logs the success went through. *)
Lemma enable_success cl arn w :
  let r := run provider today (enable_keys_body cl arn) w in
  let w1 := final (run provider today (key_status cl arn) w) in
  let enabled := provider cl (Api.enable_key arn) w1 in
  let listed := provider cl (Api.list_resource_tags arn) (snd enabled) in
  let untagged :=
    provider cl (Api.untag_resource arn ["DisabledOn"]) (snd listed) in
  let common :=
    [Issued cl (Api.describe_key arn); Issued cl (Api.enable_key arn);
     Issued cl (Api.list_resource_tags arn)] in
  let success := Logged INFO ("Key " +:+ arn +:+ " enabled") in
  reports INFO ("Key " +:+ arn +:+ " enabled") (trace r) ->
  exists s tags,
    resolved provider today cl arn w = Returned s
    /\ s <> "NotFound"
    /\ fst enabled = Returned tt
    /\ fst listed = Returned tags
    /\ if any_tag "DisabledOn" tags
       then fst untagged = Returned tt
            /\ trace r
               = common
                 ++ [Issued cl (Api.untag_resource arn ["DisabledOn"]); success]
            /\ final r = snd untagged
       else trace r = common ++ [success] /\ final r = snd listed.
Proof.
  cbn zeta.
  pose proof (enable_cases cl arn w) as Hc. cbn zeta in Hc.
  destruct (resolved provider today cl arn w) as [s|e|x];
    [|by destruct Hc as [-> _]; intros H; member H..].
  destruct (String.eqb_spec s "NotFound") as [Heq|Hs].
  { destruct Hc as [-> _]. intros [[=]|[[= Hmsg]|[]]].
    apply (append_inj_l arn) in Hmsg. discriminate Hmsg. }
  set (w1 := final (run provider today (key_status cl arn) w)) in *.
  destruct (fst (provider cl (Api.enable_key arn) w1)) as [[]|e|x];
    [|by destruct Hc as [-> _]; intros H; member H..].
  set (w2 := snd (provider cl (Api.enable_key arn) w1)) in *.
  destruct (fst (provider cl (Api.list_resource_tags arn) w2)) as [tags|e|x]
    eqn:Hlist; [|by destruct Hc as [-> _]; intros H; member H..].
  intros Hlog. exists s, tags. do 4 (split; [done|]).
  destruct (any_tag "DisabledOn" tags); [|done].
  set (w3 := snd (provider cl (Api.list_resource_tags arn) w2)) in *.
  destruct Hc as [Htr ->].
  destruct (fst (provider cl (Api.untag_resource arn ["DisabledOn"]) w3))
    as [[]|e|x]; [done| |]; rewrite Htr in Hlog; member Hlog.
Qed.

End Enable.

Section Ledger.
Context {W : Type} (provider : provider_of W) (today : string).

(** The provider's tag ledger, as far as [DisabledOn] goes:
    [carries_disabled_on w cl arn] says that in state [w] the key [arn]
    carries the tag, as seen through client [cl]. *)
Variable carries_disabled_on : W -> client -> string -> Prop.

(** A successful listing shows the tag exactly when the key carries it. *)
Hypothesis listing_is_faithful : forall cl arn w tags,
  fst (provider cl (Api.list_resource_tags arn) w) = Returned tags ->
  (any_tag "DisabledOn" tags = true <-> carries_disabled_on w cl arn).

(** A successful removal leaves the key without the tag. *)
Hypothesis untag_removes : forall cl arn w,
  fst (provider cl (Api.untag_resource arn ["DisabledOn"]) w) = Returned tt ->
  ~ carries_disabled_on
      (snd (provider cl (Api.untag_resource arn ["DisabledOn"]) w)) cl arn.

(** Describing, enabling and listing put no tag on a key. *)
Hypothesis no_tag_appears : forall cl c w arn,
  before_untag c = true ->
  carries_disabled_on (snd (provider cl c w)) cl arn ->
  carries_disabled_on w cl arn.

Lemma untagged_key_stays cl arn w :
  ~ carries_disabled_on w cl arn ->
  forall cl' id names,
    ~ issues cl' (Api.untag_resource id names)
        (trace (run provider today (enable_keys_body cl arn) w)).
Proof.
  intros Hfree cl' id names.
  pose proof (enable_cases provider today cl arn w) as Hc. cbn zeta in Hc.
  pose proof (run_key_status provider today cl arn w) as Hks.
  destruct (resolved provider today cl arn w) as [s|e|x];
    [|by destruct Hc as [-> _]; intros H; member H..].
  destruct (String.eqb s "NotFound").
  { destruct Hc as [-> _]. intros H; member H. }
  rewrite Hks in Hc; cbn [final] in Hc.
  set (w1 := snd (provider cl (Api.describe_key arn) w)) in *.
  destruct (fst (provider cl (Api.enable_key arn) w1)) as [[]|e|x];
    [|by destruct Hc as [-> _]; intros H; member H..].
  set (w2 := snd (provider cl (Api.enable_key arn) w1)) in *.
  destruct (fst (provider cl (Api.list_resource_tags arn) w2)) as [tags|e|x]
    eqn:Hlist; [|by destruct Hc as [-> _]; intros H; member H..].
  destruct (any_tag "DisabledOn" tags) eqn:Hany.
  2:{ destruct Hc as [-> _]. intros H; member H. }
  exfalso. apply Hfree.
  apply (no_tag_appears cl (Api.describe_key arn)); [done|].
  apply (no_tag_appears cl (Api.enable_key arn)); [done|].
  by apply (listing_is_faithful cl arn w2 tags).
Qed.

Lemma enabled_key_is_untagged cl arn w :
  reports INFO ("Key " +:+ arn +:+ " enabled")
    (trace (run provider today (enable_keys_body cl arn) w)) ->
  ~ carries_disabled_on
      (final (run provider today (enable_keys_body cl arn) w)) cl arn.
Proof.
  intros (s & tags & _ & _ & _ & Hlist & Hc)%enable_success.
  destruct (any_tag "DisabledOn" tags) eqn:Hany.
  - destruct Hc as (Huntag & _ & ->). by apply untag_removes.
  - destruct Hc as [_ ->]. intros Hcarried.
    apply (no_tag_appears cl (Api.list_resource_tags arn)) in Hcarried;
      [|done].
    apply (listing_is_faithful _ _ _ _ Hlist) in Hcarried. congruence.
Qed.

(** C6.  [enable_keys] logs a key as enabled exactly when its state
    resolved to something other than [NotFound], the provider accepted
    [enable_key], answered the listing of its tags and, where the listing
    shows [DisabledOn], accepted its removal.  It removes no other tag,
    and none before [enable_key] was accepted and the key found carrying
    [DisabledOn].  Against a provider that keeps its tag ledger, a
    successful enable has issued [enable_key], has issued the removal of
    [DisabledOn] exactly when the key carried it, and leaves the key
    without the tag; so a second enable of the same key right after it
    issues no [untag_resource]. *)
Theorem second_enable_removes_no_tag (cl : client) (arn : string) (w : W) :
  let first := run provider today (enable_keys_body cl arn) w in
  let second := run provider today (enable_keys_body cl arn) (final first) in
  let success := reports INFO ("Key " +:+ arn +:+ " enabled") (trace first) in
  let enabled :=
    provider cl (Api.enable_key arn)
      (final (run provider today (key_status cl arn) w)) in
  let w2 := after_enable provider today cl arn w in
  let listed := provider cl (Api.list_resource_tags arn) w2 in
  let untag := Api.untag_resource arn ["DisabledOn"] in
  (success
   <-> exists s tags,
         resolved provider today cl arn w = Returned s
         /\ s <> "NotFound"
         /\ fst enabled = Returned tt
         /\ fst listed = Returned tags
         /\ (any_tag "DisabledOn" tags = true ->
             fst (provider cl untag (snd listed)) = Returned tt))
  /\ (forall cl' id names,
        issues cl' (Api.untag_resource id names) (trace first) ->
        (cl' = cl /\ id = arn /\ names = ["DisabledOn"])
        /\ issues cl (Api.enable_key arn) (trace first)
        /\ fst enabled = Returned tt
        /\ carries_disabled_on w2 cl arn)
  /\ (success ->
      issues cl (Api.enable_key arn) (trace first)
      /\ (issues cl untag (trace first) <-> carries_disabled_on w2 cl arn)
      /\ ~ carries_disabled_on (final first) cl arn
      /\ forall cl' id names,
           ~ issues cl' (Api.untag_resource id names) (trace second)).
Proof.
  cbn zeta. unfold after_enable. split; [split|split].
  - intros (s & tags & Hres & Hs & Hen & Hlist & Hc)%enable_success.
    exists s, tags. do 4 (split; [done|]).
    intros Hany. rewrite Hany in Hc. by destruct Hc as [-> _].
  - intros (s & tags & Hres & Hs & Hen & Hlist & Huntag).
    pose proof (enable_cases provider today cl arn w) as Hc. cbn zeta in Hc.
    rewrite Hres in Hc. apply String.eqb_neq in Hs. rewrite Hs in Hc.
    rewrite Hen, Hlist in Hc.
    destruct (any_tag "DisabledOn" tags).
    + rewrite Huntag in Hc by done. destruct Hc as [-> _].
      do 4 right. by left.
    + destruct Hc as [-> _]. do 3 right. by left.
  - intros cl' id names.
    pose proof (enable_cases provider today cl arn w) as Hc. cbn zeta in Hc.
    destruct (resolved provider today cl arn w) as [s|e|x];
      [|by destruct Hc as [-> _]; intros H; member H..].
    destruct (String.eqb s "NotFound").
    { destruct Hc as [-> _]. intros H; member H. }
    set (w1 := final (run provider today (key_status cl arn) w)) in *.
    destruct (fst (provider cl (Api.enable_key arn) w1)) as [[]|e|x];
      [|by destruct Hc as [-> _]; intros H; member H..].
    set (w2 := snd (provider cl (Api.enable_key arn) w1)) in *.
    destruct (fst (provider cl (Api.list_resource_tags arn) w2)) as [tags|e|x]
      eqn:Hlist; [|by destruct Hc as [-> _]; intros H; member H..].
    destruct (any_tag "DisabledOn" tags) eqn:Hany.
    2:{ destruct Hc as [-> _]. intros H; member H. }
    destruct Hc as [-> _]. intros H.
    assert (cl' = cl /\ id = arn /\ names = ["DisabledOn"]) as Hsame.
    { by destruct (fst (provider cl (Api.untag_resource arn _) _));
        member H. }
    split; [done|]. split; [right; by left|]. split; [done|].
    by apply (listing_is_faithful cl arn w2 tags).
  - intros Hsuccess.
    pose proof (enable_success provider today cl arn w Hsuccess)
      as (s & tags & _ & _ & Hen & Hlist & Hc).
    cbn zeta in Hc.
    pose proof (listing_is_faithful _ _ _ _ Hlist) as Hfaith.
    split; [|split; [|split]].
    + destruct (any_tag "DisabledOn" tags); [destruct Hc as (_ & -> & _)
                                            |destruct Hc as [-> _]];
        right; by left.
    + destruct (any_tag "DisabledOn" tags).
      * destruct Hc as (_ & -> & _).
        split; [intros _; by apply Hfaith|intros _; do 3 right; by left].
      * destruct Hc as [-> _].
        split; [intros H; member H|].
        intros Hcarried%Hfaith. discriminate Hcarried.
    + by apply enabled_key_is_untagged.
    + apply untagged_key_stays. by apply enabled_key_is_untagged.
Qed.

(** X15.  Enabling un-marks a key: against a provider that keeps its tag
    ledger, after a successful enable of a key, [schedule_key_deletion]
    for that key, with or without [dry_run], issues no
    [schedule_key_deletion] and no other mutating call. *)
Theorem enabled_key_is_not_scheduled (cl : client) (arn : string) (days : Z)
    (dry_run : bool) (w : W) :
  let first := run provider today (enable_keys_body cl arn) w in
  let r :=
    run provider today (schedule_key_deletion_body cl days dry_run arn)
      (final first) in
  reports INFO ("Key " +:+ arn +:+ " enabled") (trace first) ->
  (forall cl' id d, ~ issues cl' (Api.schedule_key_deletion id d) (trace r))
  /\ mutates (trace r) = false.
Proof.
  cbn zeta. intros Hfree%enabled_key_is_untagged.
  set (w' := final (run provider today (enable_keys_body cl arn) w)) in *.
  pose proof (schedule_cases provider today cl days dry_run arn w') as Hc.
  cbn zeta in Hc. unfold listed_tags in Hc.
  rewrite run_key_status in Hc. cbn [final] in Hc.
  destruct (resolved provider today cl arn w') as [s|e|x].
  2:{ destruct Hc as (lvl & msg & -> & _). split; [|done].
      by intros cl' id d [[=]|[[=]|[]]]. }
  2:{ destruct Hc as [-> _]. split; [|done]. by intros cl' id d [[=]|[]]. }
  destruct (String.eqb s "PendingDeletion").
  { destruct Hc as [-> _]. split; [|done].
    by intros cl' id d [[=]|[[=]|[]]]. }
  set (w1 := snd (provider cl (Api.describe_key arn) w')) in *.
  destruct (fst (provider cl (Api.list_resource_tags arn) w1)) as [tags|e|x]
    eqn:Hlist.
  2:{ rewrite Hc. split.
      - by destruct (String.eqb (Code e) "NotFoundException");
          intros cl' id d [[=]|[[=]|[[=]|[]]]].
      - by destruct (String.eqb (Code e) "NotFoundException"). }
  2:{ rewrite Hc. split; [|done]. by intros cl' id d [[=]|[[=]|[]]]. }
  destruct (in_excluded_service (next_tag "service_name" tags)).
  { rewrite Hc. split; [|done]. by intros cl' id d [[=]|[[=]|[[=]|[]]]]. }
  destruct (any_tag "DisabledOn" tags) eqn:Hany.
  { exfalso. apply Hfree.
    apply (no_tag_appears cl (Api.describe_key arn)); [done|].
    by apply (listing_is_faithful cl arn w1 tags). }
  rewrite Hc. split; [|done]. by intros cl' id d [[=]|[[=]|[[=]|[]]]].
Qed.

End Ledger.

(** ** The handler's response *)


Ltac caught :=
  repeat match goal with
    | |- forall _, _ => intro
    | |- catches (for_each _ _) => apply catches_for_each
    | |- catches (try_except _ _) => apply catches_try_except
    | |- catches (bind _ _) => apply catches_bind
    | |- catches (build_client _ _ _) => exact I
    | |- catches (if ?b then _ else _) => destruct b
    | |- catches (match ?x with _ => _ end) => destruct x
    | |- catches (logger _ _) => exact I
    | |- catches (Ret _) => exact I
    end.

Section Handler.
Context {W : Type} (provider : provider_of W) (today : string).




(** The handler up to the construction of the KMS client, for an account
    that is not blocked. *)
Lemma run_lambda_handler_allowed (ev : Event.t) (w : W) (account_id : string) :
  fst (provider sts Api.get_caller_identity w) = Returned account_id ->
  ~ In account_id blocked_accounts ->
  run provider today (lambda_handler ev) w
  = seen (Issued sts Api.get_caller_identity)
      (run provider today
         (let* kms_client :=
            build_client boto3_Session "kms"
              (default "us-east-1" (Event.aws_region ev)) in
          match default [] (Event.key_arns ev) with
          | [] =>
              do logger ERROR "No key ARNs provided." then
              Ret {| statusCode := 400; body := "No key ARNs specified" |}
          | _ :: _ =>
              let action := Event.action ev in
              let key_arns := default [] (Event.key_arns ev) in
              let dry_run := default false (Event.dry_run ev) in
              let deletion_days :=
                default 30 (Event.deletion_schedule_days ev) in
              let completed :=
                Ret {| statusCode := 200;
                       body := "Action " +:+ PyStr.of_opt action
                               +:+ " completed" |} in
              if action_is action "disable"
              then do disable_keys kms_client key_arns dry_run then completed
              else if action_is action "enable"
              then do enable_keys kms_client key_arns then completed
              else if action_is action "schedule_deletion"
              then do schedule_key_deletion kms_client key_arns deletion_days
                        dry_run
                   then completed
              else if action_is action "cancel_deletion"
              then do cancel_key_deletion kms_client key_arns then completed
              else if action_is action "tag_srk_migration"
              then do tag_srk_migration kms_client key_arns then completed
              else if action_is action "remove_tag_srk_migration"
              then do remove_tag_srk_migration kms_client key_arns
                   then completed
              else if action_is action "replicate_ireland"
              then do replicate_ireland boto3_Session kms_client key_arns
                        dry_run
                   then completed
              else
                do logger ERROR
                     ("Unsupported action: " +:+ PyStr.of_opt action) then
                Ret {| statusCode := 400;
                       body := "Unsupported action: "
                               +:+ PyStr.of_opt action |}
          end)
         (snd (provider sts Api.get_caller_identity w))).
Proof.
  intros Hid Hfree. unfold lambda_handler.
  rewrite run_bind, run_invoke. fold sts. rewrite Hid.
  unfold and_then, seen. cbn [outcome trace final].
  destruct (List.existsb (String.eqb account_id) blocked_accounts) eqn:Hb.
  { cbn in Hb. destruct (String.eqb_spec account_id "111122223333") as [Heq|_];
      [|done].
    destruct Hfree. by left. }
  reflexivity.
Qed.

(** X17.  A request from a blocked account is answered 403 whatever it
    asks for: the identity query is the only call, and no key is looked
    at. *)
Lemma lambda_handler_blocked (ev : Event.t) (w : W) (account_id : string) :
  fst (provider sts Api.get_caller_identity w) = Returned account_id ->
  In account_id blocked_accounts ->
  outcome (run provider today (lambda_handler ev) w)
  = Returned {| statusCode := 403;
                body := "Execution not allowed in this account" |}
  /\ trace (run provider today (lambda_handler ev) w)
     = [Issued sts Api.get_caller_identity;
        Logged WARNING ("Execution blocked in account " +:+ account_id)].
Proof.
  intros Hid [<-|[]]. unfold lambda_handler; cbn.
  fold sts.
  destruct (provider sts Api.get_caller_identity w) as [[a|e|x] w1];
    cbn in Hid; [|done|done].
  by injection Hid as ->.
Qed.

(** X18.  A request from an allowed account without keys, the list empty
    or absent, is answered 400 with [No key ARNs specified] whatever its
    action, recognised or not, once the session has built the client for
    the request's region: the identity query is the only call. *)
Lemma lambda_handler_no_keys (ev : Event.t) (w : W) (account_id : string) :
  fst (provider sts Api.get_caller_identity w) = Returned account_id ->
  ~ In account_id blocked_accounts ->
  builds provider (default "us-east-1" (Event.aws_region ev)) ->
  default [] (Event.key_arns ev) = [] ->
  outcome (run provider today (lambda_handler ev) w)
  = Returned {| statusCode := 400; body := "No key ARNs specified" |}
  /\ trace (run provider today (lambda_handler ev) w)
     = [Issued sts Api.get_caller_identity;
        Logged ERROR "No key ARNs provided."].
Proof.
  intros Hid Hfree Hregion Hkeys.
  rewrite (run_lambda_handler_allowed ev w account_id) by done.
  cbn. unfold builds in Hregion. by rewrite Hregion, Hkeys.
Qed.

Lemma action_is_other (action : option string) (name : string) :
  action <> Some name -> action_is action name = false.
Proof.
  destruct action as [a|]; cbn; [|done].
  intros Hne. apply String.eqb_neq. congruence.
Qed.

(** X19.  A request from an allowed account with keys but an action
    outside the seven supported ones, or none, is answered 400 with the
    action's name in the body ([None] when absent), once the session has
    built the client for the request's region: the identity query is the
    only call, and no key is looked at. *)
Lemma lambda_handler_unsupported (ev : Event.t) (w : W) (account_id : string) :
  fst (provider sts Api.get_caller_identity w) = Returned account_id ->
  ~ In account_id blocked_accounts ->
  builds provider (default "us-east-1" (Event.aws_region ev)) ->
  default [] (Event.key_arns ev) <> [] ->
  (forall name, In name supported -> Event.action ev <> Some name) ->
  outcome (run provider today (lambda_handler ev) w)
  = Returned {| statusCode := 400;
                body := "Unsupported action: "
                        +:+ PyStr.of_opt (Event.action ev) |}
  /\ trace (run provider today (lambda_handler ev) w)
     = [Issued sts Api.get_caller_identity;
        Logged ERROR
          ("Unsupported action: " +:+ PyStr.of_opt (Event.action ev))].
Proof.
  intros Hid Hfree Hregion Hkeys Hother.
  rewrite (run_lambda_handler_allowed ev w account_id) by done.
  cbn. unfold builds in Hregion. rewrite Hregion.
  destruct (default [] (Event.key_arns ev)) as [|arn arns]; [done|].
  rewrite !action_is_other by (apply Hother; cbn; tauto).
  done.
Qed.


(** X21.  When the session refuses the request's region, the exception
    leaves [lambda_handler] right after the identity query, before the
    key list and the action are looked at: a request from an allowed
    account is then answered neither 400 nor 200, whatever its keys and
    action. *)
Lemma lambda_handler_region_refused (ev : Event.t) (w : W)
    (account_id : string) (x : Exception) :
  fst (provider sts Api.get_caller_identity w) = Returned account_id ->
  ~ In account_id blocked_accounts ->
  rejects provider (default "us-east-1" (Event.aws_region ev)) = Some x ->
  outcome (run provider today (lambda_handler ev) w) = Crashed x
  /\ trace (run provider today (lambda_handler ev) w)
     = [Issued sts Api.get_caller_identity].
Proof.
  intros Hid Hfree Hregion.
  rewrite (run_lambda_handler_allowed ev w account_id) by done.
  cbn. by rewrite Hregion.
Qed.

(** C7.  A dry-run [disable] resolves the key's state outside any [try]:
    against a provider that refuses [describe_key] with
    [AccessDeniedException], an unblocked request with one key does not
    answer 200; the provider's error escapes [lambda_handler]. *)
Theorem dry_run_disable_lets_provider_error_escape :
  outcome
    (run (Kms.denying "444455556666") Scenario.today
       (lambda_handler (Scenario.request "disable" ["key/enabled"] true)) tt)
  = Failed (Kms.error "AccessDeniedException" "KMS").
Proof. reflexivity. Qed.

(** The same request without [dry_run] catches the provider's error and
    answers 200. *)
Lemma disable_catches_provider_error :
  outcome
    (run (Kms.denying "444455556666") Scenario.today
       (lambda_handler (Scenario.request "disable" ["key/enabled"] false)) tt)
  = Returned {| statusCode := 200; body := "Action disable completed" |}.
Proof. reflexivity. Qed.

End Handler.

(** ** The reference provider *)

Section Reference.

Lemma kms_reads_are_pure cl c (w : Kms.world) :
  Api.read_only c = true -> snd (Kms.provider cl c w) = w.
Proof.
  destruct c; try done; intros _; cbn; unfold Kms.on_key;
    by destruct (Kms.keys w !! _).
Qed.

Lemma drop_tags_removes name ts :
  any_tag name (Kms.drop_tags [name] ts) = false.
Proof.
  unfold any_tag, Kms.drop_tags. induction ts as [|t ts IH]; cbn; [done|].
  destruct (String.eqb (TagKey t) name) eqn:Ht; cbn; [done|].
  by rewrite Ht.
Qed.

Lemma kms_listing_is_faithful cl arn (w : Kms.world) tags :
  fst (Kms.provider cl (Api.list_resource_tags arn) w) = Returned tags ->
  (any_tag "DisabledOn" tags = true <-> Kms.carries_disabled_on w cl arn).
Proof.
  cbn. unfold Kms.on_key, Kms.carries_disabled_on.
  destruct (Kms.keys w !! _) as [k|]; cbn; [|done].
  by intros [= <-].
Qed.

Lemma kms_untag_removes cl arn (w : Kms.world) :
  fst (Kms.provider cl (Api.untag_resource arn ["DisabledOn"]) w) = Returned tt ->
  ~ Kms.carries_disabled_on
      (snd (Kms.provider cl (Api.untag_resource arn ["DisabledOn"]) w)) cl arn.
Proof.
  cbn [Kms.provider respond Kms.answer].
  unfold Kms.on_key, Kms.carries_disabled_on.
  destruct (Kms.keys w !! (Kms.region_of cl, arn)) as [k|] eqn:Hk;
    cbn [fst snd]; [|done].
  intros _. cbn [Kms.store Kms.keys]. rewrite lookup_insert_eq.
  cbn [Kms.with_tags Kms.tags]. by rewrite drop_tags_removes.
Qed.

Lemma kms_no_tag_appears cl c (w : Kms.world) arn :
  before_untag c = true ->
  Kms.carries_disabled_on (snd (Kms.provider cl c w)) cl arn ->
  Kms.carries_disabled_on w cl arn.
Proof.
  destruct c as [|id|id|id| | |id| | | | | | |]; try done; intros _; cbn;
    unfold Kms.transition, Kms.on_key;
    destruct (Kms.keys w !! (Kms.region_of cl, id)) as [k|] eqn:Hk;
    try done.
  destruct (Kms.deleting k); [done|]. cbn.
  unfold Kms.carries_disabled_on; cbn.
  destruct (decide (id = arn)) as [->|Hne].
  - by rewrite lookup_insert_eq, Hk.
  - rewrite lookup_insert_ne; [done|congruence].
Qed.


End Reference.

(** ** Concrete runs *)

Section Concrete.
Import Scenario.

Example replace_all_occurrences :
  PyStr.replace "a_ca-central-1_b_ca-central-1" "_ca-central-1" "_eu-west-1"
  = "a_eu-west-1_b_eu-west-1".
Proof. reflexivity. Qed.

Example replace_does_not_overlap : PyStr.replace "aaa" "aa" "b" = "ba".
Proof. reflexivity. Qed.

Example replace_empty_pattern : PyStr.replace "ab" "" "-" = "-a-b-".
Proof. reflexivity. Qed.

Example key_id_of_arn :
  key_id "arn:aws:kms:ca-central-1:444455556666:key/1234abcd" = "1234abcd".
Proof. reflexivity. Qed.

Example key_id_of_bare_id : key_id "1234abcd" = "1234abcd".
Proof. reflexivity. Qed.

Example of_int_30 : PyStr.of_int 30 = "30".
Proof. reflexivity. Qed.

(** Disabling an enabled key: one [disable_key], one [tag_resource] with
    today's date, and a 200. *)
Example disable_end_to_end :
  let r := run Kms.provider today
             (lambda_handler (request "disable" ["key/enabled"] false)) fleet in
  outcome r
  = Returned {| statusCode := 200; body := "Action disable completed" |}
  /\ trace r
     = [Issued sts Api.get_caller_identity;
        Issued kms (Api.disable_key "key/enabled");
        Issued kms (Api.tag_resource "key/enabled" [tag "DisabledOn" today]);
        Logged INFO "Key key/enabled disabled"]
  /\ Kms.keys (final r) !! ("ca-central-1", "key/enabled")
     = Some (key_in "Disabled" [tag "DisabledOn" today]).
Proof. vm_compute. done. Qed.

(** Scheduling the deletion of a disabled key tagged [service_name=rds]:
    no [schedule_key_deletion], a warning, and a 200. *)
Example schedule_excluded_end_to_end :
  let r := run Kms.provider today
             (lambda_handler (request "schedule_deletion" ["key/rds"] false))
             fleet in
  outcome r
  = Returned {| statusCode := 200;
                body := "Action schedule_deletion completed" |}
  /\ trace r
     = [Issued sts Api.get_caller_identity;
        Issued kms (Api.describe_key "key/rds");
        Issued kms (Api.list_resource_tags "key/rds");
        Logged WARNING "Key key/rds is in use by rds — skipping deletion."]
  /\ final r = fleet.
Proof. vm_compute. done. Qed.

(** Against C1: [key/missing] resolves to [NotFound], yet
    [disable_keys] without [dry_run] issues the mutating [disable_key] for
    it, and [cancel_key_deletion] reports nothing to cancel rather than
    not found. *)
Lemma not_found_disable_still_calls_provider :
  resolved Kms.provider today kms "key/missing" fleet = Returned "NotFound"
  /\ issues kms (Api.disable_key "key/missing")
       (trace (run Kms.provider today
                 (disable_keys kms ["key/missing"] false) fleet))
  /\ mutates (trace (run Kms.provider today
                       (disable_keys kms ["key/missing"] false) fleet))
     = true
  /\ logs (trace (run Kms.provider today
                    (cancel_key_deletion kms ["key/missing"]) fleet))
     = [(INFO,
         "Key key/missing is not scheduled for deletion — nothing to cancel.")].
Proof. vm_compute. repeat split. by left. Qed.

Lemma not_found_keys_are_left_alone_witness :
  trace (run Kms.provider today (enable_keys_body kms "key/missing") fleet)
  = [Issued kms (Api.describe_key "key/missing");
     Logged INFO "Key key/missing not found"].
Proof.
  refine (proj1 (not_found_keys_are_left_alone Kms.provider today kms
                   "key/missing" 30 false fleet _)).
  vm_compute. reflexivity.
Defined.

(** Against C2: [key/rds-pending] is classified under [rds],
    yet it is skipped as already scheduled, with no warning. *)
Lemma excluded_pending_key_gets_no_warning :
  in_excluded_service
    (next_tag "service_name"
       [tag "service_name" "rds"; tag "DisabledOn" "2024-05-01"]) = true
  /\ listed_tags Kms.provider today kms "key/rds-pending" fleet
     = Returned [tag "service_name" "rds"; tag "DisabledOn" "2024-05-01"]
  /\ trace (run Kms.provider today
              (schedule_key_deletion kms ["key/rds-pending"] 30 false) fleet)
     = [Issued kms (Api.describe_key "key/rds-pending");
        Logged INFO "Key key/rds-pending already scheduled for deletion."]
  /\ ~ (exists msg,
          reports WARNING msg
            (trace (run Kms.provider today
                      (schedule_key_deletion kms ["key/rds-pending"] 30 false)
                      fleet))).
Proof.
  vm_compute. repeat split. intros (msg & [[=]|[[=]|[]]]).
Qed.

Lemma excluded_service_never_scheduled_witness :
  mutates (trace (run Kms.provider today
                    (schedule_key_deletion_body kms 30 false "key/rds") fleet))
  = false.
Proof.
  refine (proj1 (proj2 (excluded_service_never_scheduled Kms.provider today
                          kms "key/rds" 30 false fleet
                          [tag "service_name" "rds";
                           tag "DisabledOn" "2024-05-01"] _ _)));
    vm_compute; reflexivity.
Defined.

Lemma dry_run_issues_only_reads_witness :
  final (run Kms.provider today
           (disable_keys kms ["key/enabled"; "key/missing"] true) fleet)
  = fleet.
Proof.
  refine (proj1 (proj2 (proj2 (dry_run_issues_only_reads Kms.provider today
                                 boto3_Session kms
                                 ["key/enabled"; "key/missing"] 30
                                 "key/srk" "alias_ca-central-1_srk"
                                 "eu-west-1" fleet)) _)).
  intros cl c w. apply kms_reads_are_pure.
Defined.

Lemma schedule_deletion_iff_witness :
  issues kms (Api.schedule_key_deletion "key/disabled" 30)
    (trace (run Kms.provider today
              (schedule_key_deletion_body kms 30 false "key/disabled") fleet)).
Proof.
  refine (proj2 (proj1 (schedule_deletion_iff Kms.provider today kms
                          "key/disabled" 30 false fleet)) _).
  exists "Disabled", [tag "DisabledOn" "2024-05-01"].
  vm_compute. repeat split. discriminate.
Defined.

Lemma cancel_deletion_only_when_pending_witness :
  issues kms (Api.cancel_key_deletion "key/rds-pending")
    (trace (run Kms.provider today
              (cancel_key_deletion_body kms "key/rds-pending") fleet)).
Proof.
  refine (proj2 (proj1 (cancel_deletion_only_when_pending Kms.provider today
                          kms "key/rds-pending" fleet)) _).
  left. vm_compute. reflexivity.
Defined.

Lemma primary_alias_is_first_match_witness :
  outcome (run Kms.provider today (get_primary_alias kms "key/srk") fleet)
  = Returned (Some "alias_ca-central-1_srk").
Proof.
  refine (proj1 (proj1 (primary_alias_is_first_match Kms.provider today
                          boto3_Session kms "key/srk" false fleet)
                   [ {| AliasName := "alias_ca-central-1_srk";
                        TargetKeyId := "srk" |} ] _)
            [] {| AliasName := "alias_ca-central-1_srk"; TargetKeyId := "srk" |}
            [] _ _ _).
  - vm_compute. reflexivity.
  - reflexivity.
  - constructor.
  - vm_compute. reflexivity.
Defined.

End Concrete.


(** ** The string primitives *)

Section Strings.

Lemma after_last_absent (sep : ascii) (s : string) :
  PyStr.occurs (String sep EmptyString) s = false ->
  PyStr.after_last sep s = None.
Proof.
  induction s as [|c s IH]; [done|].
  cbn [PyStr.occurs PyStr.after_last String.prefix].
  intros [Hc Hs]%orb_false_elim. rewrite (IH Hs).
  destruct (Ascii.eqb_spec c sep) as [->|Hne]; [|done].
  destruct (ascii_dec sep sep); [|done].
  by destruct s.
Qed.

Lemma after_last_found (sep : ascii) (p id : string) :
  PyStr.after_last sep id = None ->
  PyStr.after_last sep (p +:+ String sep id) = Some id.
Proof.
  intros Hid. induction p as [|c p IH]; simpl.
  - by rewrite Hid, Ascii.eqb_refl.
  - by rewrite IH.
Qed.

Lemma after_last_is_last (sep : ascii) (s t : string) :
  PyStr.after_last sep s = Some t -> PyStr.after_last sep t = None.
Proof.
  revert t. induction s as [|c s IH]; intros t; cbn; [done|].
  destruct (PyStr.after_last sep s) as [u|] eqn:Hs.
  - intros [= <-]. by apply IH.
  - destruct (Ascii.eqb c sep); [|done]. by intros [= <-].
Qed.

(** X1.  [key_id] keeps what follows the last [/]: for an identifier
    without [/] it is the identity, for [p/id] with no [/] in [id] it is
    [id] whatever [p] is, and its result never changes under a second
    application. *)
Theorem key_id_is_last_segment :
  (forall id, PyStr.occurs "/" id = false -> key_id id = id)
  /\ (forall p id,
        PyStr.occurs "/" id = false -> key_id (p +:+ "/" +:+ id) = id)
  /\ (forall arn, key_id (key_id arn) = key_id arn).
Proof.
  unfold key_id, PyStr.split_last. repeat split.
  - intros id Hid. by rewrite after_last_absent.
  - intros p id Hid. change (p +:+ "/" +:+ id) with (p +:+ String "/" id).
    by rewrite after_last_found by (by apply after_last_absent).
  - intros arn. destruct (PyStr.after_last "/" arn) as [t|] eqn:Harn.
    + by rewrite (after_last_is_last _ _ _ Harn).
    + by rewrite Harn.
Qed.

Lemma replace_scan_absent (old new s : string) :
  PyStr.occurs old s = false -> PyStr.replace_scan old new O s = s.
Proof.
  induction s as [|c s IH]; [done|].
  cbn [PyStr.occurs PyStr.replace_scan]. intros [Hp Hs]%orb_false_elim.
  rewrite Hp. f_equal. by apply IH.
Qed.

Lemma prefix_cons (a b : ascii) (s1 s2 : string) :
  String.prefix (String a s1) (String b s2)
  = if ascii_dec a b then String.prefix s1 s2 else false.
Proof. reflexivity. Qed.

Lemma occurs_cons (old : string) (c : ascii) (s : string) :
  PyStr.occurs old (String c s)
  = String.prefix old (String c s) || PyStr.occurs old s.
Proof. reflexivity. Qed.

Lemma replace_scan_cons (old new : string) (c : ascii) (s : string) :
  PyStr.replace_scan old new O (String c s)
  = if String.prefix old (String c s)
    then new +:+ PyStr.replace_scan old new (Nat.pred (String.length old)) s
    else String c (PyStr.replace_scan old new O s).
Proof. reflexivity. Qed.

Lemma replace_scan_drops (old new skipped rest : string) :
  PyStr.replace_scan old new (String.length skipped) (skipped +:+ rest)
  = PyStr.replace_scan old new O rest.
Proof.
  induction skipped as [|c skipped IH]; [done|].
  change (String c skipped +:+ rest) with (String c (skipped +:+ rest)).
  exact IH.
Qed.

Lemma prefix_app (s t : string) : String.prefix s (s +:+ t) = true.
Proof.
  induction s as [|c s IH]; [by destruct t|].
  change (String c s +:+ t) with (String c (s +:+ t)).
  rewrite prefix_cons. by destruct (ascii_dec c c).
Qed.

Lemma replace_scan_skips_name (old new name rest : string) :
  PyStr.occurs "_" name = false ->
  PyStr.replace_scan (String "_" old) new O (name +:+ rest)
  = name +:+ PyStr.replace_scan (String "_" old) new O rest.
Proof.
  induction name as [|c name IH]; [done|].
  rewrite occurs_cons, prefix_cons. intros [Hc Hname]%orb_false_elim.
  change (String c name +:+ rest) with (String c (name +:+ rest)).
  rewrite replace_scan_cons, prefix_cons.
  destruct (ascii_dec "_" c) as [<-|Hne].
  - by destruct name.
  - rewrite IH by done. reflexivity.
Qed.

Lemma secondary_alias_of_token (rest region : string) :
  secondary_alias_of ("_ca-central-1" +:+ rest) region
  = "_" +:+ region +:+ secondary_alias_of rest region.
Proof.
  unfold secondary_alias_of, PyStr.replace.
  change ("_ca-central-1" +:+ rest)
    with (String "_" ("ca-central-1" +:+ rest)).
  rewrite replace_scan_cons.
  change (String "_" ("ca-central-1" +:+ rest))
    with ("_ca-central-1" +:+ rest).
  rewrite prefix_app.
  change (Nat.pred (String.length "_ca-central-1"))
    with (String.length "ca-central-1").
  rewrite replace_scan_drops. reflexivity.
Qed.

Lemma secondary_alias_of_other (c : ascii) (s region : string) :
  String.prefix "_ca-central-1" (String c s) = false ->
  secondary_alias_of (String c s) region
  = String c (secondary_alias_of s region).
Proof.
  intros Hprefix. unfold secondary_alias_of, PyStr.replace.
  by rewrite replace_scan_cons, Hprefix.
Qed.

Lemma secondary_alias_of_absent (alias region : string) :
  PyStr.occurs "_ca-central-1" alias = false ->
  secondary_alias_of alias region = alias.
Proof.
  intros Habsent. unfold secondary_alias_of, PyStr.replace.
  by apply replace_scan_absent.
Qed.

(** X2.  For an alias that follows the naming convention, [name] without
    underscore followed by [_ca-central-1] and anything, the secondary
    alias is [name], [_], the secondary region, and the secondary alias of
    what follows: the first token is replaced where it stands and the
    substitution goes on after it.  When nothing after it holds the token,
    the rest is kept as it is. *)
Theorem secondary_alias_of_conventional_alias (name rest region : string) :
  PyStr.occurs "_" name = false ->
  secondary_alias_of (name +:+ "_ca-central-1" +:+ rest) region
  = name +:+ "_" +:+ region +:+ secondary_alias_of rest region
  /\ (PyStr.occurs "_ca-central-1" rest = false ->
      secondary_alias_of (name +:+ "_ca-central-1" +:+ rest) region
      = name +:+ "_" +:+ region +:+ rest).
Proof.
  intros Hname.
  assert (Hfirst : secondary_alias_of (name +:+ "_ca-central-1" +:+ rest) region
                   = name +:+ "_" +:+ region
                     +:+ secondary_alias_of rest region).
  { unfold secondary_alias_of, PyStr.replace.
    rewrite replace_scan_skips_name by done. f_equal.
    change ("_ca-central-1" +:+ rest)
      with (String "_" ("ca-central-1" +:+ rest)).
    rewrite replace_scan_cons.
    change (String "_" ("ca-central-1" +:+ rest))
      with ("_ca-central-1" +:+ rest).
    rewrite prefix_app.
    change (Nat.pred (String.length "_ca-central-1"))
      with (String.length "ca-central-1").
    rewrite replace_scan_drops. reflexivity. }
  split; [exact Hfirst|].
  intros Hrest. rewrite Hfirst. do 3 f_equal.
  unfold secondary_alias_of, PyStr.replace. by apply replace_scan_absent.
Qed.

End Strings.

(** ** State resolution and alias lookup *)

Section Lookups.
Context {W : Type} (provider : provider_of W) (today : string).

(** X3.  [key_status] issues one [describe_key] and nothing else, and
    leaves the provider where that call left it.  A key the provider does
    not know resolves to the state [NotFound] instead of raising; a
    described key resolves to its [KeyState]; any other provider error is
    raised unchanged, so the error raised is never a
    [NotFoundException]. *)
Theorem key_status_turns_not_found_into_a_state (cl : client) (arn : string)
    (w : W) :
  let r := run provider today (key_status cl arn) w in
  let answer := provider cl (Api.describe_key arn) w in
  (trace r = [Issued cl (Api.describe_key arn)] /\ final r = snd answer)
  /\ (forall m, fst answer = Returned m -> outcome r = Returned (KeyState m))
  /\ (forall e,
        fst answer = Failed e ->
        outcome r
        = if String.eqb (Code e) "NotFoundException"
          then Returned "NotFound" else Failed e)
  /\ (forall e, outcome r = Failed e ->
        fst answer = Failed e /\ Code e <> "NotFoundException").
Proof.
  cbn zeta. rewrite run_key_status. cbn [outcome trace final].
  destruct (provider cl (Api.describe_key arn) w) as [[m|e|x] w1];
    cbn [fst snd].
  - repeat split; try done. by intros m' [= <-].
  - split; [done|]. split; [done|]. split.
    + by intros e' [= <-].
    + intros e'. destruct (String.eqb_spec (Code e) "NotFoundException");
        [done|]. by intros [= <-].
  - repeat split; done.
Qed.

(** X4.  [get_primary_alias] lets no [ClientError] escape and changes
    nothing itself: it issues one [list_aliases] for the key; when the
    provider refuses that call with a [ClientError] it logs the error and
    answers [None]; when the provider lists an alias whose target is the
    key's identifier it answers with an alias of the list that has this
    target.  An exception of another class raised by the call is not
    caught: it escapes exactly as the call raised it. *)
Theorem get_primary_alias_is_a_lookup (cl : client) (arn : string) (w : W) :
  let r := run provider today (get_primary_alias cl arn) w in
  let answer := provider cl (Api.list_aliases arn) w in
  (forall e, outcome r <> Failed e)
  /\ (forall x, outcome r = Crashed x <-> fst answer = Crashed x)
  /\ calls (trace r) = [(cl, Api.list_aliases arn)]
  /\ final r = snd answer
  /\ (forall e,
        fst answer = Failed e ->
        outcome r = Returned None
        /\ logs (trace r)
           = [(ERROR,
               "Error getting alias for key " +:+ arn +:+ ": " +:+ rendered e)])
  /\ (forall aliases name,
        fst answer = Returned aliases ->
        (outcome r = Returned (Some name) ->
         exists alias,
           In alias aliases /\ TargetKeyId alias = key_id arn
           /\ AliasName alias = name)
        /\ (outcome r = Returned None ->
            forall alias, In alias aliases -> TargetKeyId alias <> key_id arn)).
Proof.
  cbn zeta. rewrite run_get_primary_alias. cbn zeta.
  destruct (provider cl (Api.list_aliases arn) w) as [[aliases|e|x] w1];
    cbn [fst snd outcome trace final].
  - split; [by intros ? [=]|]. split; [by split|]. do 2 (split; [done|]).
    split; [by intros ? [=]|].
    intros aliases' name [= <-].
    destruct (List.find _ aliases) as [alias|] eqn:Hfind; cbn.
    + split; [|done]. intros [= <-].
      apply List.find_some in Hfind as [Hin Htarget].
      exists alias. by apply String.eqb_eq in Htarget.
    + split; [done|]. intros _ alias Hin.
      apply (List.find_none _ _ Hfind) in Hin. by apply String.eqb_neq.
  - split; [by intros ? [=]|]. split; [by split|]. do 2 (split; [done|]).
    split.
    + by intros e' [= <-].
    + by intros aliases name [=].
  - split; [by intros ? [=]|]. split; [by split; intros [= ->]|].
    do 2 (split; [done|]).
    split; [by intros ? [=]|by intros ? ? [=]].
Qed.

End Lookups.

(** ** Batches *)

Section Batches.
Context {W : Type} (provider : provider_of W) (today : string).





End Batches.

(** ** The operations one by one *)

Section Operations.
Context {W : Type} (provider : provider_of W) (today : string).

Lemma run_disable_dry_run_error (cl : client) (arn : string) (w : W)
    (e : ClientError) :
  fst (provider cl (Api.describe_key arn) w) = Failed e ->
  Code e <> "NotFoundException" ->
  run provider today (disable_keys_body cl true arn) w
  = {| outcome := Failed e;
       trace := [Issued cl (Api.describe_key arn)];
       final := snd (provider cl (Api.describe_key arn) w) |}.
Proof.
  intros Hanswer Hcode%String.eqb_neq.
  change (disable_keys_body cl true arn)
    with (let* status := key_status cl arn in
          if negb (String.eqb status "NotFound")
          then logger INFO ("Key " +:+ arn +:+ " would be disabled. (Dry Run)")
          else logger INFO ("Key " +:+ arn +:+ " not found. (Dry Run)")).
  rewrite run_bind, run_key_status. unfold and_then. cbn [outcome trace final].
  by rewrite Hanswer, Hcode.
Qed.

(** X6.  A dry-run [disable_keys] has no handler around its state
    resolution: once the keys before [arn] were resolved, a
    [describe_key] of [arn] that fails with anything but
    [NotFoundException] ends the whole batch with that error, and the keys
    after [arn] are not looked at. *)
Theorem dry_run_disable_stops_at_first_error (cl : client)
    (pre : list string) (arn : string) (post : list string) (w : W)
    (e : ClientError) :
  let before := run provider today (disable_keys cl pre true) w in
  let r := run provider today (disable_keys cl (pre ++ arn :: post) true) w in
  outcome before = Returned tt ->
  fst (provider cl (Api.describe_key arn) (final before)) = Failed e ->
  Code e <> "NotFoundException" ->
  outcome r = Failed e
  /\ trace r = trace before ++ [Issued cl (Api.describe_key arn)]
  /\ final r = snd (provider cl (Api.describe_key arn) (final before)).
Proof.
  cbn zeta. intros Hbefore Hanswer Hcode. unfold disable_keys in *.
  rewrite run_for_each_app. unfold and_then. rewrite Hbefore.
  cbn [outcome trace final].
  rewrite run_for_each_cons.
  rewrite (run_disable_dry_run_error cl arn _ e Hanswer Hcode).
  unfold and_then. by cbn.
Qed.



(** X8.  [disable_keys] without [dry_run] tags only what it disabled: the
    [DisabledOn] tag, dated today, is written exactly when the provider
    accepted [disable_key], and no other tag is written; success is logged
    only when both calls were accepted.  When the provider accepts
    [disable_key] and refuses the tag, the key stays disabled without the
    tag and the log reports a failure to disable. *)
Theorem disable_tags_only_what_it_disabled (cl : client) (arn : string) (w : W) :
  let r := run provider today (disable_keys_body cl false arn) w in
  let disabled := provider cl (Api.disable_key arn) w in
  let tag :=
    Api.tag_resource arn [ {| TagKey := "DisabledOn"; TagValue := today |} ] in
  let tagged := provider cl tag (snd disabled) in
  (issues cl tag (trace r) <-> exists u, fst disabled = Returned u)
  /\ (forall cl' id tags,
        issues cl' (Api.tag_resource id tags) (trace r) ->
        cl' = cl /\ Api.tag_resource id tags = tag)
  /\ (reports INFO ("Key " +:+ arn +:+ " disabled") (trace r)
      <-> (exists u, fst disabled = Returned u)
          /\ exists u, fst tagged = Returned u)
  /\ (forall u e,
        fst disabled = Returned u -> fst tagged = Failed e ->
        trace r
        = [Issued cl (Api.disable_key arn); Issued cl tag;
           Logged ERROR
             ("Failed to disable key " +:+ arn +:+ ": " +:+ rendered e)]
        /\ final r = snd tagged).
Proof.
  cbn zeta. rewrite run_disable_keys_body. cbn zeta.
  destruct (fst (provider cl (Api.disable_key arn) w)) as [u|e|x];
    cbn [outcome trace final].
  - destruct (fst (provider cl (Api.tag_resource arn _) _)) as [u'|e'|x'];
      cbn [outcome trace final].
    + split; [split; [eauto|intros _; right; by left]|].
      split; [by intros cl' id tags [[=]|[[= <- <- <-]|[[=]|[]]]]|].
      split; [split; [eauto|intros _; do 2 right; by left]|].
      by intros u0 e0 _ [=].
    + split; [split; [eauto|intros _; right; by left]|].
      split; [by intros cl' id tags [[=]|[[= <- <- <-]|[[=]|[]]]]|].
      split; [split; [by intros [[=]|[[=]|[[=]|[]]]]|by intros (_ & ? & [=])]|].
      by intros u0 e0 _ [= <-].
    + split; [split; [eauto|intros _; right; by left]|].
      split; [by intros cl' id tags [[=]|[[= <- <- <-]|[]]]|].
      split; [split; [by intros [[=]|[[=]|[]]]|by intros (_ & ? & [=])]|].
      by intros u0 e0 _ [=].
  - split; [split; [by intros [[=]|[[=]|[]]]|by intros (? & [=])]|].
    split; [by intros cl' id tags [[=]|[[=]|[]]]|].
    split; [split; [by intros [[=]|[[=]|[]]]|by intros ((? & [=]) & _)]|].
    by intros u0 e0 [=].
  - split; [split; [by intros [[=]|[]]|by intros (? & [=])]|].
    split; [by intros cl' id tags [[=]|[]]|].
    split; [split; [by intros [[=]|[]]|by intros ((? & [=]) & _)]|].
    by intros u0 e0 [=].
Qed.

(** X9.  [enable_keys] has no precondition on the state beyond existence:
    it issues [enable_key] exactly when the state resolves to something
    other than [NotFound], whatever it is, and it reads the tags only after
    the provider accepted [enable_key]. *)
Theorem enable_attempted_in_every_found_state (cl : client) (arn : string)
    (w : W) :
  let r := run provider today (enable_keys_body cl arn) w in
  let w1 := final (run provider today (key_status cl arn) w) in
  (issues cl (Api.enable_key arn) (trace r)
   <-> exists s, resolved provider today cl arn w = Returned s /\ s <> "NotFound")
  /\ (issues cl (Api.list_resource_tags arn) (trace r)
      <-> (exists s,
             resolved provider today cl arn w = Returned s /\ s <> "NotFound")
          /\ exists u, fst (provider cl (Api.enable_key arn) w1) = Returned u).
Proof.
  cbn zeta.
  pose proof (enable_cases provider today cl arn w) as Hc. cbn zeta in Hc.
  destruct (resolved provider today cl arn w) as [s|e|x].
  2:{ destruct Hc as [-> _]. split; split;
        try (by intros [[=]|[[=]|[]]]); by intros [(?&?&_) _] || intros (?&?&_). }
  2:{ destruct Hc as [-> _]. split; split;
        try (by intros [[=]|[]]); by intros [(?&?&_) _] || intros (?&?&_). }
  destruct (String.eqb_spec s "NotFound") as [Heq|Hne].
  { destruct Hc as [-> _]. split; split; try (by intros [[=]|[[=]|[]]]).
    - by intros (s' & [= <-] & ?).
    - by intros [(s' & [= <-] & ?) _]. }
  set (w1 := final (run provider today (key_status cl arn) w)) in *.
  assert (Hfound : exists s0 : string, Returned s = Returned s0 /\ s0 <> "NotFound")
    by eauto.
  destruct (fst (provider cl (Api.enable_key arn) w1)) as [u|e|x].
  2:{ destruct Hc as [-> _]. split; split; try done.
      - intros _. right. by left.
      - by intros [[=]|[[=]|[[=]|[]]]].
      - by intros (_ & ? & [=]). }
  2:{ destruct Hc as [-> _]. split; split; try done.
      - intros _. right. by left.
      - by intros [[=]|[[=]|[]]].
      - by intros (_ & ? & [=]). }
  set (w2 := snd (provider cl (Api.enable_key arn) w1)) in *.
  destruct (fst (provider cl (Api.list_resource_tags arn) w2)) as [tags|e|x].
  2,3:(destruct Hc as [-> _]; split; split; eauto;
       [intros _; right; by left | intros _; do 2 right; by left]).
  destruct (any_tag "DisabledOn" tags); destruct Hc as [-> _];
    (split; split; eauto; intros _; [right; by left | do 2 right; by left]).
Qed.

Lemma run_crashed_resolution {A} (cl : client) (arn : string)
    (k : string -> prog A) (h : ClientError -> prog A) (w : W) (x : Exception) :
  fst (provider cl (Api.describe_key arn) w) = Crashed x ->
  run provider today
    (try_except (let* status := key_status cl arn in k status) h) w
  = {| outcome := Crashed x;
       trace := [Issued cl (Api.describe_key arn)];
       final := snd (provider cl (Api.describe_key arn) w) |}.
Proof.
  intros Hanswer. rewrite run_try_except, run_bind, run_key_status.
  unfold or_else, and_then. cbn [outcome trace final]. by rewrite Hanswer.
Qed.

Lemma run_for_each_crash {X} (body : X -> prog unit) (pre : list X) (x : X)
    (post : list X) (w : W) (ex : Exception) (tr : list observation) (w' : W) :
  let before := run provider today (for_each pre body) w in
  outcome before = Returned tt ->
  run provider today (body x) (final before)
  = {| outcome := Crashed ex; trace := tr; final := w' |} ->
  run provider today (for_each (pre ++ x :: post) body) w
  = {| outcome := Crashed ex; trace := trace before ++ tr; final := w' |}.
Proof.
  cbn zeta. intros Hbefore Hhere.
  rewrite run_for_each_app. unfold and_then. rewrite Hbefore.
  cbn [outcome trace final]. rewrite run_for_each_cons, Hhere.
  unfold and_then. by cbn.
Qed.

(** X22.  An exception that is not a [ClientError] ends a batch: once the
    keys before [arn] were handled, a [describe_key] of [arn] that ends in
    such an exception ends [enable_keys], [schedule_key_deletion] and
    [cancel_key_deletion] with it, outside their [except ClientError]
    handlers; nothing is logged for [arn], and the keys after it are not
    looked at. *)
Theorem other_exception_ends_the_batch (cl : client) (pre : list string)
    (arn : string) (post : list string) (days : Z) (dry_run : bool)
    (x : Exception) :
  let stops (op : list string -> prog unit) :=
    forall w,
      let before := run provider today (op pre) w in
      outcome before = Returned tt ->
      fst (provider cl (Api.describe_key arn) (final before)) = Crashed x ->
      run provider today (op (pre ++ arn :: post)) w
      = {| outcome := Crashed x;
           trace := trace before ++ [Issued cl (Api.describe_key arn)];
           final := snd (provider cl (Api.describe_key arn) (final before)) |} in
  stops (enable_keys cl)
  /\ stops (fun key_arns => schedule_key_deletion cl key_arns days dry_run)
  /\ stops (cancel_key_deletion cl).
Proof.
  cbn zeta.
  unfold enable_keys, schedule_key_deletion, cancel_key_deletion.
  repeat split; intros w Hbefore Hanswer;
    apply run_for_each_crash; try done;
    by apply run_crashed_resolution.
Qed.

End Operations.

(** ** Replicating a key *)

Section Replica.
Context {W : Type} (provider : provider_of W) (today : string).

(** Once the session has built the two clients, [replicate_key] runs its
    [try] statement with them. *)
Lemma run_replicate_key (session : Session) (arn alias region : string)
    (dry_run : bool) (w : W) :
  run provider today (replicate_key session arn alias region dry_run) w
  = match rejects provider "ca-central-1" with
    | Some x => {| outcome := Crashed x; trace := []; final := w |}
    | None =>
        match rejects provider region with
        | Some x => {| outcome := Crashed x; trace := []; final := w |}
        | None =>
            let kms_primary := session_client session "kms" "ca-central-1" in
            let kms_secondary := session_client session "kms" region in
            let secondary_alias := secondary_alias_of alias region in
            run provider today
              (try_except
                 (let* policy :=
                    invoke kms_primary (Api.get_key_policy arn "default") in
                  let* tags :=
                    invoke kms_primary (Api.list_resource_tags arn) in
                  if dry_run
                  then logger INFO
                         ("Would replicate key " +:+ arn +:+ " to "
                          +:+ region +:+ " with alias " +:+ secondary_alias
                          +:+ ". (Dry Run)")
                  else
                    let* response :=
                      invoke kms_primary
                        (Api.replicate_key arn region "Replica key") in
                    do invoke kms_secondary
                         (Api.put_key_policy (Arn response) "default" policy) then
                    do invoke kms_secondary
                         (Api.create_alias secondary_alias (Arn response)) then
                    do match tags with
                       | [] => Ret tt
                       | _ :: _ =>
                           invoke kms_secondary
                             (Api.tag_resource (Arn response) tags)
                       end then
                    logger INFO
                      ("Replica key created with alias " +:+ secondary_alias))
                 (fun e =>
                    logger ERROR
                      ("Error replicating key " +:+ arn +:+ ": "
                       +:+ rendered e))) w
        end
    end.
Proof.
  unfold replicate_key. cbn [bind build_client run].
  destruct (rejects provider "ca-central-1"); [done|].
  by destruct (rejects provider region).
Qed.

(** The run of [replicate_key] without [dry_run] once the session has
    built the two clients, by what the provider answered. *)
Lemma replicate_cases (session : Session) (arn alias region : string) (w : W) :
  builds provider "ca-central-1" -> builds provider region ->
  let kp := session_client session "kms" "ca-central-1" in
  let ks := session_client session "kms" region in
  let r := run provider today (replicate_key session arn alias region false) w in
  let failure e :=
    Logged ERROR ("Error replicating key " +:+ arn +:+ ": " +:+ rendered e) in
  let get := Issued kp (Api.get_key_policy arn "default") in
  let list := Issued kp (Api.list_resource_tags arn) in
  let rep := Issued kp (Api.replicate_key arn region "Replica key") in
  let a1 := provider kp (Api.get_key_policy arn "default") w in
  let a2 := provider kp (Api.list_resource_tags arn) (snd a1) in
  let a3 := provider kp (Api.replicate_key arn region "Replica key") (snd a2) in
  match fst a1 with
  | Crashed x => trace r = [get]
  | Failed e => trace r = [get; failure e]
  | Returned policy =>
      match fst a2 with
      | Crashed x => trace r = [get; list]
      | Failed e => trace r = [get; list; failure e]
      | Returned tags =>
          match fst a3 with
          | Crashed x => trace r = [get; list; rep]
          | Failed e => trace r = [get; list; rep; failure e]
          | Returned replica =>
              let put :=
                Api.put_key_policy (Arn replica) "default" policy in
              let a4 := provider ks put (snd a3) in
              let name :=
                Api.create_alias (secondary_alias_of alias region) (Arn replica) in
              let a5 := provider ks name (snd a4) in
              let tag := Api.tag_resource (Arn replica) tags in
              let a6 := provider ks tag (snd a5) in
              let success :=
                Logged INFO
                  ("Replica key created with alias "
                   +:+ secondary_alias_of alias region) in
              match fst a4 with
              | Crashed x => trace r = [get; list; rep; Issued ks put]
              | Failed e => trace r = [get; list; rep; Issued ks put; failure e]
              | Returned _ =>
                  match fst a5 with
                  | Crashed x =>
                      trace r = [get; list; rep; Issued ks put; Issued ks name]
                  | Failed e =>
                      trace r
                      = [get; list; rep; Issued ks put; Issued ks name; failure e]
                  | Returned _ =>
                      match tags with
                      | [] =>
                          trace r
                          = [get; list; rep; Issued ks put; Issued ks name;
                             success]
                      | _ :: _ =>
                          trace r
                          = [get; list; rep; Issued ks put; Issued ks name;
                             Issued ks tag]
                            ++ match fst a6 with
                               | Returned _ => [success]
                               | Failed e => [failure e]
                               | Crashed x => []
                               end
                      end
                  end
              end
          end
      end
  end.
Proof.
  unfold builds. intros Hp Hs. cbn zeta.
  rewrite run_replicate_key, Hp, Hs. cbn -[secondary_alias_of].
  destruct (provider _ (Api.get_key_policy arn "default") w)
    as [[policy|e|x] w1]; cbn -[secondary_alias_of]; [|done|done].
  destruct (provider _ (Api.list_resource_tags arn) w1)
    as [[tags|e|x] w2]; cbn -[secondary_alias_of]; [|done|done].
  destruct (provider _ (Api.replicate_key arn region "Replica key") w2)
    as [[replica|e|x] w3]; cbn -[secondary_alias_of]; [|done|done].
  destruct (provider _ (Api.put_key_policy _ _ _) w3)
    as [[[]|e|x] w4]; cbn -[secondary_alias_of]; [|done|done].
  destruct (provider _ (Api.create_alias _ _) w4)
    as [[[]|e|x] w5]; cbn -[secondary_alias_of]; [|done|done].
  destruct tags as [|t tags]; cbn -[secondary_alias_of]; [done|].
  by destruct (provider _ (Api.tag_resource _ _) w5) as [[[]|e|x] w6].
Qed.

Lemma replicate_key_catches (session : Session) (arn alias region : string)
    (dry_run : bool) (w : W) (e : ClientError) :
  outcome (run provider today (replicate_key session arn alias region dry_run) w)
  <> Failed e.
Proof. apply catches_run. unfold replicate_key. caught. Qed.


(** X10.  Once the session has built the two clients and the provider has
    answered the two reads on the primary key and created the replica,
    [replicate_key] writes to the replica what it read: [put_key_policy]
    carries the policy document that [get_key_policy] returned, under the
    name [default], on the replica the provider named; the alias is
    created, under the derived name and pointing at that replica, exactly
    when the policy was accepted; and the tags that [list_resource_tags]
    returned are copied exactly when there are some and the alias was
    accepted.  Nothing else is written. *)
Theorem replica_receives_policy_and_tags (session : Session)
    (arn alias region : string) (w : W) (policy : string) (tags : list Tag)
    (replica : KeyMetadata) :
  let kp := session_client session "kms" "ca-central-1" in
  let ks := session_client session "kms" region in
  let r := run provider today (replicate_key session arn alias region false) w in
  let a1 := provider kp (Api.get_key_policy arn "default") w in
  let a2 := provider kp (Api.list_resource_tags arn) (snd a1) in
  let a3 := provider kp (Api.replicate_key arn region "Replica key") (snd a2) in
  let put := Api.put_key_policy (Arn replica) "default" policy in
  let a4 := provider ks put (snd a3) in
  let name :=
    Api.create_alias (secondary_alias_of alias region) (Arn replica) in
  let a5 := provider ks name (snd a4) in
  let tag := Api.tag_resource (Arn replica) tags in
  builds provider "ca-central-1" ->
  builds provider region ->
  fst a1 = Returned policy ->
  fst a2 = Returned tags ->
  fst a3 = Returned replica ->
  issues ks put (trace r)
  /\ (issues ks name (trace r) <-> exists u, fst a4 = Returned u)
  /\ (issues ks tag (trace r)
      <-> tags <> [] /\ (exists u, fst a4 = Returned u)
          /\ exists u, fst a5 = Returned u)
  /\ (forall cl c,
        issues cl c (trace r) -> replica_write c = true ->
        cl = ks /\ (c = put \/ c = name \/ c = tag)).
Proof.
  cbn zeta. intros Hp Hs H1 H2 H3.
  pose proof (replicate_cases session arn alias region w Hp Hs) as Hc.
  cbn zeta in Hc. rewrite H1, H2, H3 in Hc.
  destruct (fst (provider _ (Api.put_key_policy _ _ _) _)) as [u4|e4|x4].
  2,3:(rewrite Hc; split; [do 3 right; by left|];
       split; [split; [intros H; member H|by intros (? & [=])]|];
       split; [split; [intros H; member H|by intros (_ & (? & [=]) & _)]|];
       intros cl c H Hw; member H; eauto).
  destruct (fst (provider _ (Api.create_alias _ _) _)) as [u5|e5|x5].
  2,3:(rewrite Hc; split; [do 3 right; by left|];
       split; [split; [eauto|intros _; do 4 right; by left]|];
       split; [split; [intros H; member H|by intros (_ & _ & ? & [=])]|];
       intros cl c H Hw; member H; eauto).
  destruct tags as [|t tags].
  { rewrite Hc. split; [do 3 right; by left|].
    split; [split; [eauto|intros _; do 4 right; by left]|].
    split; [split; [intros H; member H|by intros (? & _)]|].
    intros cl c H Hw. member H; eauto. }
  rewrite Hc. split; [do 3 right; by left|].
  split; [split; [eauto|intros _; do 4 right; by left]|].
  split; [split; [eauto|intros _; do 5 right; by left]|].
  intros cl c H Hw.
  destruct (fst (provider _ (Api.tag_resource _ _) _)); member H; eauto.
Qed.


(** C8.  The replica's alias is the primary alias with every occurrence
    of the token [_ca-central-1], left to right, replaced by [_] and the
    secondary region: the derivation of the empty alias is empty; where
    the alias starts with the token, it is [_], the secondary region and
    the derivation of what follows the token; where it starts otherwise,
    it is the first character and the derivation of the rest.  So
    [alias_ca-central-1_srk] becomes [alias_eu-west-1_srk] for
    [eu-west-1].  When the primary alias does not contain the token, the
    derived alias is the primary alias unchanged, and [replicate_key] goes
    on with it: it raises no [ClientError], logs no warning, creates no
    alias under another name and, once the session has built its clients
    and the provider has answered the reads, created the replica and
    accepted the policy, it issues [create_alias] for the replica under
    that unchanged name. *)
Theorem secondary_alias_is_textual_substitution :
  (forall region, secondary_alias_of "" region = "")
  /\ (forall rest region,
        secondary_alias_of ("_ca-central-1" +:+ rest) region
        = "_" +:+ region +:+ secondary_alias_of rest region)
  /\ (forall c s region,
        String.prefix "_ca-central-1" (String c s) = false ->
        secondary_alias_of (String c s) region
        = String c (secondary_alias_of s region))
  /\ secondary_alias_of "alias_ca-central-1_srk" "eu-west-1"
     = "alias_eu-west-1_srk"
  /\ (forall primary_alias secondary_region,
        PyStr.occurs "_ca-central-1" primary_alias = false ->
        secondary_alias_of primary_alias secondary_region = primary_alias)
  /\ (forall session arn primary_alias secondary_region dry_run (w : W),
        PyStr.occurs "_ca-central-1" primary_alias = false ->
        let kp := session_client session "kms" "ca-central-1" in
        let ks := session_client session "kms" secondary_region in
        let r :=
          run provider today
            (replicate_key session arn primary_alias secondary_region dry_run)
            w in
        let a1 := provider kp (Api.get_key_policy arn "default") w in
        let a2 := provider kp (Api.list_resource_tags arn) (snd a1) in
        let a3 :=
          provider kp (Api.replicate_key arn secondary_region "Replica key")
            (snd a2) in
        (forall e, outcome r <> Failed e)
        /\ Forall (keeps_alias primary_alias) (trace r)
        /\ (forall policy tags replica,
              builds provider "ca-central-1" ->
              builds provider secondary_region ->
              dry_run = false ->
              fst a1 = Returned policy ->
              fst a2 = Returned tags ->
              fst a3 = Returned replica ->
              fst (provider ks
                     (Api.put_key_policy (Arn replica) "default" policy)
                     (snd a3))
              = Returned tt ->
              issues ks (Api.create_alias primary_alias (Arn replica))
                (trace r))).
Proof.
  split; [done|]. split; [exact secondary_alias_of_token|].
  split; [exact secondary_alias_of_other|]. split; [reflexivity|].
  split; [exact secondary_alias_of_absent|].
  intros session arn alias region dry_run w Habsent. cbn zeta.
  split; [intros e; apply replicate_key_catches|]. split.
  - apply only_observes_run. unfold replicate_key.
    rewrite (secondary_alias_of_absent alias region Habsent).
    walk; by cbn.
  - intros policy tags replica Hp Hs -> H1 H2 H3 H4.
    pose proof (replicate_cases session arn alias region w Hp Hs) as Hc.
    cbn zeta in Hc.
    rewrite (secondary_alias_of_absent alias region Habsent) in Hc.
    rewrite H1, H2, H3, H4 in Hc.
    destruct (fst (provider _ (Api.create_alias _ _) _));
      [|rewrite Hc; do 4 right; by left..].
    destruct tags; rewrite Hc; do 4 right; by left.
Qed.

End Replica.

(** ** Which keys an operation touches *)

Section Inventory.
Context {W : Type} (provider : provider_of W) (today : string).

Lemma only_observes_for_each_in {X} P (xs : list X) (body : X -> prog unit) :
  (forall x, In x xs -> only_observes P (body x)) ->
  only_observes P (for_each xs body).
Proof.
  induction xs as [|x xs IH]; intros Hb; cbn; [done|].
  apply only_observes_bind.
  - apply Hb. by left.
  - intros _. apply IH. intros y Hy. apply Hb. by right.
Qed.

(** Closes the side condition of a call on a requested key. *)
Ltac requested :=
  first [ exact I
        | split; [reflexivity|];
          split; [cbn; rewrite ?String.eqb_refl, ?Z.eqb_refl; reflexivity|];
          eexists; split; [reflexivity|eassumption] ].

Lemma disable_keys_static cl key_arns dry_run :
  only_calls (on_requested cl key_arns (disable_calls dry_run))
    (disable_keys cl key_arns dry_run).
Proof.
  apply only_observes_for_each_in. intros arn Hin.
  unfold disable_keys_body, strftime_today. walk; try requested.
  cbn. intros d. walk; requested.
Qed.

Lemma enable_keys_static cl key_arns :
  only_calls (on_requested cl key_arns enable_calls) (enable_keys cl key_arns).
Proof.
  apply only_observes_for_each_in. intros arn Hin.
  unfold enable_keys_body. walk; requested.
Qed.

Lemma schedule_key_deletion_static cl key_arns days dry_run :
  only_calls (on_requested cl key_arns (schedule_calls days dry_run))
    (schedule_key_deletion cl key_arns days dry_run).
Proof.
  apply only_observes_for_each_in. intros arn Hin.
  unfold schedule_key_deletion_body. walk; requested.
Qed.

Lemma cancel_key_deletion_static cl key_arns :
  only_calls (on_requested cl key_arns cancel_calls)
    (cancel_key_deletion cl key_arns).
Proof.
  apply only_observes_for_each_in. intros arn Hin.
  unfold cancel_key_deletion_body. walk; requested.
Qed.

Lemma migration_static cl key_arns :
  only_calls (on_requested cl key_arns migration_calls)
    (tag_srk_migration cl key_arns)
  /\ only_calls (on_requested cl key_arns migration_calls)
       (remove_tag_srk_migration cl key_arns).
Proof.
  split; apply only_observes_for_each_in; intros arn Hin; walk; requested.
Qed.

(** X12.  Each lifecycle operation goes through the client it was given
    and touches only keys of the list it was given, with the calls of its
    own kind: [disable_keys] describes (dry run) or disables and tags with
    [DisabledOn] (otherwise); [enable_keys] describes, enables, lists tags
    and removes [DisabledOn]; [schedule_key_deletion] describes, lists tags
    and, outside a dry run, schedules with the window it was given;
    [cancel_key_deletion] describes and cancels; the migration-tag
    operations write or remove [MigrationStatus] and nothing else. *)
Theorem operations_touch_only_requested_keys (cl : client)
    (key_arns : list string) (days : Z) (dry_run : bool) (w : W) :
  let ran (allowed : Api.call -> bool) (p : prog unit) :=
    all_calls (on_requested cl key_arns allowed)
      (trace (run provider today p w)) in
  ran (disable_calls dry_run) (disable_keys cl key_arns dry_run)
  /\ ran enable_calls (enable_keys cl key_arns)
  /\ ran (schedule_calls days dry_run)
       (schedule_key_deletion cl key_arns days dry_run)
  /\ ran cancel_calls (cancel_key_deletion cl key_arns)
  /\ ran migration_calls (tag_srk_migration cl key_arns)
  /\ ran migration_calls (remove_tag_srk_migration cl key_arns).
Proof.
  cbn zeta. repeat split; apply only_calls_run.
  - apply disable_keys_static.
  - apply enable_keys_static.
  - apply schedule_key_deletion_static.
  - apply cancel_key_deletion_static.
  - apply migration_static.
  - apply migration_static.
Qed.

Lemma lifecycle_of_requested region key_arns days allowed :
  (forall c, allowed c = true ->
     match c with
     | Api.get_caller_identity | Api.list_aliases _ | Api.create_alias _ _
     | Api.get_key_policy _ _ | Api.put_key_policy _ _ _
     | Api.replicate_key _ _ _ => False
     | Api.schedule_key_deletion _ d => d = days
     | _ => True
     end) ->
  forall o,
    on_calls
      (on_requested (session_client boto3_Session "kms" region) key_arns allowed)
      o ->
    on_calls (lifecycle_discipline region key_arns days) o.
Proof.
  intros Hallowed [cl c|lvl msg]; cbn; [|done].
  intros (-> & Hc & Hkey). specialize (Hallowed c Hc).
  destruct c; try done; cbn; repeat split; try done.
  by intros id d [= _ <-].
Qed.

(** X13.  A request for any action but [replicate_ireland] issues the
    identity query through the STS client and, beyond it, only lifecycle
    calls through a KMS client built for the request's [aws_region]
    ([us-east-1] when the request names none), on keys of the request's
    [key_arns]; it never lists or creates an alias, reads or writes a
    policy, or replicates a key, and a deletion it schedules has the
    request's [deletion_schedule_days] as window, or 30 days when the
    request names none. *)
Theorem lifecycle_requests_stay_in_their_region (ev : Event.t) (w : W) :
  Event.action ev <> Some "replicate_ireland" ->
  all_calls
    (lifecycle_discipline
       (default "us-east-1" (Event.aws_region ev))
       (default [] (Event.key_arns ev))
       (default 30 (Event.deletion_schedule_days ev)))
    (trace (run provider today (lambda_handler ev) w)).
Proof.
  intros Haction. apply only_calls_run. unfold lambda_handler. cbv zeta.
  rewrite (action_is_other _ "replicate_ireland") by done.
  walk; try first [exact I | reflexivity].
  - eapply only_observes_weaken;
      [apply lifecycle_of_requested|apply disable_keys_static].
    intros c. destruct c as [| | | |? [|[? ?] [|]]| | | | | | | | |];
      try done; by destruct (default false _).
  - eapply only_observes_weaken;
      [apply lifecycle_of_requested|apply enable_keys_static].
    intros c. by destruct c as [| | | | |? [|? [|]]| | | | | | | |].
  - eapply only_observes_weaken;
      [apply lifecycle_of_requested|apply schedule_key_deletion_static].
    intros c. destruct c; try done. cbn.
    intros [_ Hd%Z.eqb_eq]%andb_prop. exact Hd.
  - eapply only_observes_weaken;
      [apply lifecycle_of_requested|apply cancel_key_deletion_static].
    intros c. by destruct c.
  - eapply only_observes_weaken;
      [apply lifecycle_of_requested|apply migration_static].
    intros c. by destruct c as [| | | |? [|[? ?] [|]]|? [|? [|]]| | | | | | | |].
  - eapply only_observes_weaken;
      [apply lifecycle_of_requested|apply migration_static].
    intros c. by destruct c as [| | | |? [|[? ?] [|]]|? [|? [|]]| | | | | | | |].
Qed.

End Inventory.

(** ** Disabling, then scheduling *)

Section Marking.
Context {W : Type} (provider : provider_of W) (today : string).

(** The provider's tag ledger, as far as writing [DisabledOn] goes. *)
Variable carries_disabled_on : W -> client -> string -> Prop.

(** A successful listing shows the tag exactly when the key carries it. *)
Hypothesis listing_is_faithful : forall cl arn w tags,
  fst (provider cl (Api.list_resource_tags arn) w) = Returned tags ->
  (any_tag "DisabledOn" tags = true <-> carries_disabled_on w cl arn).

(** A successful tagging with [DisabledOn] leaves the key with the tag. *)
Hypothesis tag_marks : forall cl arn date w,
  fst (provider cl
         (Api.tag_resource arn [ {| TagKey := "DisabledOn"; TagValue := date |} ])
         w) = Returned tt ->
  carries_disabled_on
    (snd (provider cl
            (Api.tag_resource arn
               [ {| TagKey := "DisabledOn"; TagValue := date |} ]) w))
    cl arn.

(** Describing a key removes no tag. *)
Hypothesis describe_keeps : forall cl arn w,
  carries_disabled_on w cl arn ->
  carries_disabled_on (snd (provider cl (Api.describe_key arn) w)) cl arn.

(** X16.  Disabling marks a key for deletion scheduling: against a provider
    that keeps its tag ledger, after a successful [disable_keys] of a key,
    [schedule_key_deletion] without [dry_run] issues the provider's
    [schedule_key_deletion] for it with the given window, as soon as its
    state resolves to something other than [PendingDeletion], its tags are
    listed and they carry no excluded [service_name]. *)
Theorem disabled_key_is_scheduled (cl : client) (arn : string) (days : Z)
    (w : W) (s : string) (tags : list Tag) :
  let first := run provider today (disable_keys_body cl false arn) w in
  let r :=
    run provider today (schedule_key_deletion_body cl days false arn)
      (final first) in
  reports INFO ("Key " +:+ arn +:+ " disabled") (trace first) ->
  resolved provider today cl arn (final first) = Returned s ->
  s <> "PendingDeletion" ->
  listed_tags provider today cl arn (final first) = Returned tags ->
  in_excluded_service (next_tag "service_name" tags) = false ->
  issues cl (Api.schedule_key_deletion arn days) (trace r).
Proof.
  cbn zeta. intros Hdone Hres Hs Hlist Hex.
  assert (Hmarked : carries_disabled_on
            (final (run provider today (disable_keys_body cl false arn) w))
            cl arn).
  { revert Hdone. rewrite run_disable_keys_body. cbn zeta.
    destruct (fst (provider cl (Api.disable_key arn) w)) as [[]|e|x];
      cbn [trace final]; [|intros H; member H..].
    destruct (fst (provider cl (Api.tag_resource arn _) _)) as [[]|e|x]
      eqn:Htag; cbn [trace final]; [|intros H; member H..].
    intros _. by apply tag_marks. }
  set (w' := final (run provider today (disable_keys_body cl false arn) w))
    in *.
  pose proof (schedule_cases provider today cl days false arn w') as Hc.
  cbn zeta in Hc. rewrite Hres, Hlist, Hex in Hc.
  apply String.eqb_neq in Hs. rewrite Hs in Hc.
  assert (Hany : any_tag "DisabledOn" tags = true).
  { unfold listed_tags in Hlist. rewrite run_key_status in Hlist.
    cbn [final] in Hlist.
    apply (listing_is_faithful cl arn _ tags Hlist). by apply describe_keeps. }
  rewrite Hany in Hc. destruct Hc as (logs & -> & _).
  do 2 right. by left.
Qed.

End Marking.

(** ** The replicate action, key by key *)

Section Aliases.
Context {W : Type} (provider : provider_of W) (today : string).

(** X14.  In the replicate action a key is replicated only under an alias
    with a name: when the lookup finds a non-empty alias, [replicate_key]
    runs with that alias toward [eu-west-1], from the state the lookup
    left; when the alias found is the empty string, the key is skipped
    with the same warning as a key without alias. *)
Theorem replication_needs_a_named_alias (session : Session) (cl : client)
    (arn : string) (dry_run : bool) (w : W) :
  let lookup := run provider today (get_primary_alias cl arn) w in
  let r :=
    run provider today
      (replicate_ireland_body session cl "eu-west-1" dry_run arn) w in
  (forall alias,
     outcome lookup = Returned (Some alias) -> alias <> "" ->
     let replica :=
       run provider today (replicate_key session arn alias "eu-west-1" dry_run)
         (final lookup) in
     trace r = trace lookup ++ trace replica /\ final r = final replica)
  /\ (outcome lookup = Returned (Some "") ->
      trace r
      = trace lookup
        ++ [Logged WARNING
              ("No alias found for " +:+ arn +:+ ", skipping replication.")]
      /\ final r = final lookup).
Proof.
  cbn zeta. unfold replicate_ireland_body. rewrite run_bind. unfold and_then.
  split.
  - intros alias -> Hname. by destruct alias.
  - by intros ->.
Qed.

End Aliases.

(** ** The regions of the replicate action *)

Section Regions.
Context {W : Type} (provider : provider_of W) (today : string).

(** C10 (amended).  For a request whose action is [replicate_ireland]:
    every call goes to STS (the identity query), through the client of the
    request's region (the alias lookups), through a [ca-central-1] client
    (the reads of policy and tags, and [replicate_key] with
    [ReplicaRegion] [eu-west-1]) or through an [eu-west-1] client (the
    writes on the replica).  Once the account is allowed, the session has
    built the client for the request's region and the key list is not
    empty, the handler runs, after the identity query, the loop over the
    keys with that client and [eu-west-1]: each key's alias is looked up
    through the client of the request's region, and a key with a
    non-empty alias is handed to [replicate_key] with [eu-west-1],
    whatever the request's region.  [replicate_key] builds its clients for
    [ca-central-1] and for the secondary region it is given: when the
    provider accepts every call, it issues exactly [get_key_policy],
    [list_resource_tags] and [replicate_key] toward the secondary region
    through the former, then [put_key_policy], [create_alias] under the
    alias with [_ca-central-1] replaced by [_] and the secondary region,
    and, when there are tags, [tag_resource] through the latter. *)
Theorem replication_regions_are_fixed (ev : Event.t) (w : W) :
  let region := default "us-east-1" (Event.aws_region ev) in
  let key_arns := default [] (Event.key_arns ev) in
  let dry_run := default false (Event.dry_run ev) in
  let requested := session_client boto3_Session "kms" region in
  Event.action ev = Some "replicate_ireland" ->
  all_calls (replicate_discipline region)
    (trace (run provider today (lambda_handler ev) w))
  /\ (forall account_id,
        fst (provider sts Api.get_caller_identity w) = Returned account_id ->
        ~ In account_id blocked_accounts ->
        builds provider region ->
        key_arns <> [] ->
        trace (run provider today (lambda_handler ev) w)
        = Issued sts Api.get_caller_identity
          :: trace (run provider today
                      (for_each key_arns
                         (replicate_ireland_body boto3_Session requested
                            "eu-west-1" dry_run))
                      (snd (provider sts Api.get_caller_identity w))))
  /\ (forall arn w',
        let lookup := run provider today (get_primary_alias requested arn) w' in
        let r :=
          run provider today
            (replicate_ireland_body boto3_Session requested "eu-west-1"
               dry_run arn) w' in
        calls (trace lookup) = [(requested, Api.list_aliases arn)]
        /\ (exists rest, trace r = trace lookup ++ rest)
        /\ (forall alias,
              outcome lookup = Returned (Some alias) -> alias <> "" ->
              trace r
              = trace lookup
                ++ trace (run provider today
                            (replicate_key boto3_Session arn alias "eu-west-1"
                               dry_run)
                            (final lookup))))
  /\ (forall session arn alias secondary w' policy tags replica,
        let kp := session_client session "kms" "ca-central-1" in
        let ks := session_client session "kms" secondary in
        let a1 := provider kp (Api.get_key_policy arn "default") w' in
        let a2 := provider kp (Api.list_resource_tags arn) (snd a1) in
        let a3 :=
          provider kp (Api.replicate_key arn secondary "Replica key") (snd a2) in
        let put := Api.put_key_policy (Arn replica) "default" policy in
        let a4 := provider ks put (snd a3) in
        let name :=
          Api.create_alias
            (PyStr.replace alias "_ca-central-1" ("_" +:+ secondary))
            (Arn replica) in
        let a5 := provider ks name (snd a4) in
        builds provider "ca-central-1" ->
        builds provider secondary ->
        fst a1 = Returned policy ->
        fst a2 = Returned tags ->
        fst a3 = Returned replica ->
        fst a4 = Returned tt ->
        fst a5 = Returned tt ->
        calls (trace (run provider today
                        (replicate_key session arn alias secondary false) w'))
        = [(kp, Api.get_key_policy arn "default");
           (kp, Api.list_resource_tags arn);
           (kp, Api.replicate_key arn secondary "Replica key");
           (ks, put); (ks, name)]
          ++ match tags with
             | [] => []
             | _ :: _ => [(ks, Api.tag_resource (Arn replica) tags)]
             end).
Proof.
  cbn zeta. intros Haction. split; [|split; [|split]].
  - apply only_calls_run.
    unfold lambda_handler. rewrite Haction. simpl (action_is _ _).
    walk; try first [exact I | reflexivity].
    apply replicate_ireland_static.
  - intros account_id Hid Hfree Hregion Hkeys.
    rewrite (run_lambda_handler_allowed provider today ev w account_id)
      by done.
    unfold seen. cbn [trace]. f_equal.
    cbn [bind build_client run]. unfold builds in Hregion. rewrite Hregion.
    destruct (default [] (Event.key_arns ev)) as [|arn arns] eqn:Hlist;
      [done|].
    cbn zeta. rewrite Haction. simpl (action_is _ _). cbv iota.
    rewrite run_bind. unfold and_then, replicate_ireland.
    destruct (outcome (run provider today (for_each _ _) _)); cbn [trace];
      [|done..].
    by rewrite app_nil_r.
  - intros arn w'. split; [|split].
    + rewrite run_get_primary_alias. cbn zeta.
      by destruct (fst (provider _ (Api.list_aliases arn) w')).
    + unfold replicate_ireland_body. rewrite run_bind. unfold and_then.
      destruct (outcome (run provider today (get_primary_alias _ arn) w'));
        cbn [trace]; [by eexists|exists []; by rewrite app_nil_r..].
    + intros alias Hfound Hname.
      unfold replicate_ireland_body. rewrite run_bind. unfold and_then.
      rewrite Hfound. cbn [trace]. by destruct alias.
  - intros session arn alias secondary w' policy tags replica
      Hp Hs H1 H2 H3 H4 H5.
    pose proof (replicate_cases provider today session arn alias secondary w'
                  Hp Hs) as Hc.
    cbn zeta in Hc. rewrite H1, H2, H3 in Hc.
    change (secondary_alias_of alias secondary)
      with (PyStr.replace alias "_ca-central-1" ("_" +:+ secondary)) in Hc.
    rewrite H4, H5 in Hc.
    destruct tags as [|t tags]; rewrite Hc; [done|].
    by destruct (fst (provider _ (Api.tag_resource _ _) _)).
Qed.

End Regions.

(** ** More concrete runs *)

Section Coverage.
Import Scenario.

Lemma existsb_last {X} (f : X -> bool) (l : list X) (x : X) :
  f x = true -> List.existsb f (l ++ [x]) = true.
Proof.
  intros Hx. rewrite List.existsb_app. cbn. rewrite Hx.
  by destruct (List.existsb f l).
Qed.

Lemma kms_tag_marks cl arn date (w : Kms.world) :
  fst (Kms.provider cl
         (Api.tag_resource arn [ {| TagKey := "DisabledOn"; TagValue := date |} ])
         w) = Returned tt ->
  Kms.carries_disabled_on
    (snd (Kms.provider cl
            (Api.tag_resource arn
               [ {| TagKey := "DisabledOn"; TagValue := date |} ]) w))
    cl arn.
Proof.
  cbn [Kms.provider respond Kms.answer].
  unfold Kms.on_key, Kms.carries_disabled_on.
  destruct (Kms.keys w !! (Kms.region_of cl, arn)) as [k|] eqn:Hk;
    cbn [fst snd]; [|done].
  intros _. cbn [Kms.store Kms.keys]. rewrite lookup_insert_eq.
  cbn [Kms.with_tags Kms.tags]. unfold Kms.put_tags, any_tag.
  by apply existsb_last.
Qed.

Lemma kms_describe_keeps cl arn (w : Kms.world) :
  Kms.carries_disabled_on w cl arn ->
  Kms.carries_disabled_on
    (snd (Kms.provider cl (Api.describe_key arn) w)) cl arn.
Proof.
  cbn [Kms.provider respond Kms.answer]. unfold Kms.on_key.
  by destruct (Kms.keys w !! (Kms.region_of cl, arn)).
Qed.

Lemma key_id_is_last_segment_witness :
  key_id "arn:aws:kms:ca-central-1:444455556666:key/1234abcd" = "1234abcd".
Proof.
  refine (proj1 (proj2 key_id_is_last_segment)
            "arn:aws:kms:ca-central-1:444455556666:key" "1234abcd" _).
  vm_compute. reflexivity.
Defined.

Lemma secondary_alias_of_conventional_alias_witness :
  secondary_alias_of "alias/orders_ca-central-1_srk" "eu-west-1"
  = "alias/orders_eu-west-1_srk".
Proof.
  refine (proj2 (secondary_alias_of_conventional_alias
                   "alias/orders" "_srk" "eu-west-1" _) _);
    vm_compute; reflexivity.
Defined.

Lemma key_status_turns_not_found_into_a_state_witness :
  outcome (run Kms.provider today (key_status kms "key/missing") fleet)
  = Returned "NotFound".
Proof.
  refine (proj1 (proj2 (proj2 (key_status_turns_not_found_into_a_state
                                 Kms.provider today kms "key/missing" fleet)))
            (Kms.error "NotFoundException" "DescribeKey") _).
  vm_compute. reflexivity.
Defined.

Lemma get_primary_alias_is_a_lookup_witness :
  outcome (run Kms.provider today (get_primary_alias kms "key/missing") fleet)
  = Returned None.
Proof.
  refine (proj1 (proj1 (proj2 (proj2 (proj2 (proj2
            (get_primary_alias_is_a_lookup Kms.provider today kms
               "key/missing" fleet)))))
            (Kms.error "NotFoundException" "ListAliases") _)).
  vm_compute. reflexivity.
Defined.



Lemma dry_run_disable_stops_at_first_error_witness :
  trace (run (Kms.denying "444455556666") today
           (disable_keys kms ["key/enabled"; "key/disabled"] true) tt)
  = [Issued kms (Api.describe_key "key/enabled")].
Proof.
  refine (proj1 (proj2 (dry_run_disable_stops_at_first_error
                          (Kms.denying "444455556666") today kms []
                          "key/enabled" ["key/disabled"] tt
                          (Kms.error "AccessDeniedException" "KMS") _ _ _)));
    vm_compute; [reflexivity|reflexivity|discriminate].
Defined.

Lemma disable_tags_only_what_it_disabled_witness :
  issues kms
    (Api.tag_resource "key/enabled" [tag "DisabledOn" today])
    (trace (run Kms.provider today
              (disable_keys_body kms false "key/enabled") fleet)).
Proof.
  refine (proj2 (proj1 (disable_tags_only_what_it_disabled Kms.provider today
                          kms "key/enabled" fleet)) _).
  exists tt. vm_compute. reflexivity.
Defined.

Lemma enable_attempted_in_every_found_state_witness :
  issues kms (Api.enable_key "key/rds-pending")
    (trace (run Kms.provider today
              (enable_keys_body kms "key/rds-pending") fleet)).
Proof.
  refine (proj2 (proj1 (enable_attempted_in_every_found_state Kms.provider
                          today kms "key/rds-pending" fleet)) _).
  exists "PendingDeletion". vm_compute. split; [reflexivity|discriminate].
Defined.

Lemma replica_receives_policy_and_tags_witness :
  issues (session_client boto3_Session "kms" "eu-west-1")
    (Api.put_key_policy "key/srk" "default" "{}")
    (trace (run Kms.provider today
              (replicate_key boto3_Session "key/srk" "alias_ca-central-1_srk"
                 "eu-west-1" false) fleet)).
Proof.
  refine (proj1 (replica_receives_policy_and_tags Kms.provider today
                   boto3_Session "key/srk" "alias_ca-central-1_srk"
                   "eu-west-1" fleet "{}"
                   [tag "MigrationStatus" "completed"]
                   {| KeyState := "Creating"; Arn := "key/srk" |} _ _ _ _ _));
    vm_compute; reflexivity.
Defined.

(** A secondary region the session refuses: [replicate_key] ends in
    [InvalidRegionError] before any call, although the provider would
    have answered the reads and the replication. *)
Example replicate_key_with_refused_region :
  let r :=
    run Kms.provider today
      (replicate_key boto3_Session "key/srk" "alias_ca-central-1_srk"
         "eu west 1" false) fleet in
  outcome r = Crashed {| exception_class := "InvalidRegionError" |}
  /\ trace r = []
  /\ fst (Kms.provider kms
            (Api.replicate_key "key/srk" "eu west 1" "Replica key") fleet)
     = Returned {| KeyState := "Creating"; Arn := "key/srk" |}.
Proof. vm_compute. done. Qed.


Lemma lifecycle_requests_stay_in_their_region_witness :
  all_calls (lifecycle_discipline "ca-central-1" ["key/disabled"] 30)
    (trace (run Kms.provider today
              (lambda_handler (request "schedule_deletion" ["key/disabled"] false))
              fleet)).
Proof.
  refine (lifecycle_requests_stay_in_their_region Kms.provider today
            (request "schedule_deletion" ["key/disabled"] false) fleet _).
  discriminate.
Defined.

Lemma replication_needs_a_named_alias_witness :
  final (run Kms.provider today
           (replicate_ireland_body boto3_Session kms "eu-west-1" true "key/srk")
           fleet)
  = final (run Kms.provider today
             (replicate_key boto3_Session "key/srk" "alias_ca-central-1_srk"
                "eu-west-1" true)
             (final (run Kms.provider today
                       (get_primary_alias kms "key/srk") fleet))).
Proof.
  refine (proj2 (proj1 (replication_needs_a_named_alias Kms.provider today
                          boto3_Session kms "key/srk" true fleet)
                   "alias_ca-central-1_srk" _ _)).
  - vm_compute. reflexivity.
  - discriminate.
Defined.

Lemma enabled_key_is_not_scheduled_witness :
  mutates
    (trace (run Kms.provider today
              (schedule_key_deletion_body kms 30 false "key/disabled")
              (final (run Kms.provider today
                        (enable_keys_body kms "key/disabled") fleet))))
  = false.
Proof.
  refine (proj2 (enabled_key_is_not_scheduled Kms.provider today
                   Kms.carries_disabled_on kms_listing_is_faithful
                   kms_untag_removes kms_no_tag_appears
                   kms "key/disabled" 30 false fleet _)).
  vm_compute. do 4 right. by left.
Defined.

Lemma disabled_key_is_scheduled_witness :
  issues kms (Api.schedule_key_deletion "key/enabled" 7)
    (trace (run Kms.provider today
              (schedule_key_deletion_body kms 7 false "key/enabled")
              (final (run Kms.provider today
                        (disable_keys_body kms false "key/enabled") fleet)))).
Proof.
  refine (disabled_key_is_scheduled Kms.provider today
            Kms.carries_disabled_on kms_listing_is_faithful kms_tag_marks
            kms_describe_keeps kms "key/enabled" 7 fleet "Disabled"
            [tag "DisabledOn" today] _ _ _ _ _).
  - vm_compute. do 2 right. by left.
  - vm_compute. reflexivity.
  - discriminate.
  - vm_compute. reflexivity.
  - reflexivity.
Defined.

Lemma second_enable_removes_no_tag_witness :
  ~ issues kms (Api.untag_resource "key/disabled" ["DisabledOn"])
      (trace (run Kms.provider today (enable_keys_body kms "key/disabled")
                (final (run Kms.provider today
                          (enable_keys_body kms "key/disabled") fleet)))).
Proof.
  refine (proj2 (proj2 (proj2
            (proj2 (proj2 (second_enable_removes_no_tag Kms.provider today
                             Kms.carries_disabled_on kms_listing_is_faithful
                             kms_untag_removes kms_no_tag_appears
                             kms "key/disabled" fleet)) _)))
            kms "key/disabled" ["DisabledOn"]).
  vm_compute. do 4 right. by left.
Defined.

(** The first enable of [key/disabled] removes the tag it finds. *)
Example first_enable_removes_tag :
  trace (run Kms.provider today (enable_keys_body kms "key/disabled") fleet)
  = [Issued kms (Api.describe_key "key/disabled");
     Issued kms (Api.enable_key "key/disabled");
     Issued kms (Api.list_resource_tags "key/disabled");
     Issued kms (Api.untag_resource "key/disabled" ["DisabledOn"]);
     Logged INFO "Key key/disabled enabled"].
Proof. reflexivity. Qed.

Lemma secondary_alias_is_textual_substitution_witness :
  issues (session_client boto3_Session "kms" "eu-west-1")
    (Api.create_alias "alias_srk" "key/srk")
    (trace (run Kms.provider today
              (replicate_key boto3_Session "key/srk" "alias_srk" "eu-west-1"
                 false) fleet)).
Proof.
  refine (proj2 (proj2
            (proj2 (proj2 (proj2 (proj2 (proj2
               (secondary_alias_is_textual_substitution Kms.provider today)))))
               boto3_Session "key/srk" "alias_srk" "eu-west-1" false fleet _))
            "{}" [tag "MigrationStatus" "completed"]
            {| KeyState := "Creating"; Arn := "key/srk" |} _ _ _ _ _ _ _);
    vm_compute; reflexivity.
Defined.

(** Against C10: the same replicate request replicates [key/srk] when it
    names [ca-central-1]; when it names [us-west-2] the alias is looked up
    there, none is found and nothing is replicated; when it names
    [ca_central_1] the session refuses the name and the handler ends with
    [InvalidRegionError]. *)
Lemma request_region_decides_replication :
  let ran region :=
    run Kms.provider today
      (lambda_handler (request_in region "replicate_ireland" ["key/srk"] false))
      fleet in
  calls (trace (ran "us-west-2"))
  = [(sts, Api.get_caller_identity);
     (session_client boto3_Session "kms" "us-west-2",
      Api.list_aliases "key/srk")]
  /\ mutates (trace (ran "us-west-2")) = false
  /\ calls (trace (ran "ca-central-1"))
     = [(sts, Api.get_caller_identity);
        (kms, Api.list_aliases "key/srk");
        (kms, Api.get_key_policy "key/srk" "default");
        (kms, Api.list_resource_tags "key/srk");
        (kms, Api.replicate_key "key/srk" "eu-west-1" "Replica key");
        (session_client boto3_Session "kms" "eu-west-1",
         Api.put_key_policy "key/srk" "default" "{}");
        (session_client boto3_Session "kms" "eu-west-1",
         Api.create_alias "alias_eu-west-1_srk" "key/srk");
        (session_client boto3_Session "kms" "eu-west-1",
         Api.tag_resource "key/srk" [tag "MigrationStatus" "completed"])]
  /\ mutates (trace (ran "ca-central-1")) = true
  /\ outcome (ran "ca_central_1")
     = Crashed {| exception_class := "InvalidRegionError" |}
  /\ calls (trace (ran "ca_central_1")) = [(sts, Api.get_caller_identity)].
Proof. vm_compute. repeat split. Qed.

Lemma replication_regions_are_fixed_witness :
  all_calls (replicate_discipline "us-west-2")
    (trace (run Kms.provider today
              (lambda_handler
                 (request_in "us-west-2" "replicate_ireland" ["key/srk"] false))
              fleet)).
Proof.
  refine (proj1 (replication_regions_are_fixed Kms.provider today
                   (request_in "us-west-2" "replicate_ireland" ["key/srk"]
                      false)
                   fleet _)).
  reflexivity.
Defined.

Lemma lambda_handler_region_refused_witness :
  outcome (run Kms.provider today
             (lambda_handler (request_in "ca central" "enable" [] false)) fleet)
  = Crashed {| exception_class := "InvalidRegionError" |}.
Proof.
  refine (proj1 (lambda_handler_region_refused Kms.provider today
                   (request_in "ca central" "enable" [] false) fleet
                   "444455556666" _ _ _ _)).
  - reflexivity.
  - intros [[=]|[]].
  - reflexivity.
Defined.

Lemma other_exception_ends_the_batch_witness :
  run validating today
    (enable_keys kms ["key/enabled"; ""; "key/disabled"]) fleet
  = {| outcome := Crashed {| exception_class := "ParamValidationError" |};
       trace :=
         trace (run validating today (enable_keys kms ["key/enabled"]) fleet)
         ++ [Issued kms (Api.describe_key "")];
       final :=
         snd (validating kms (Api.describe_key "")
                (final (run validating today
                          (enable_keys kms ["key/enabled"]) fleet))) |}.
Proof.
  refine (proj1 (other_exception_ends_the_batch validating today kms
                   ["key/enabled"] "" ["key/disabled"] 30 false
                   {| exception_class := "ParamValidationError" |})
            fleet _ _);
    vm_compute; reflexivity.
Defined.

(** An enable request that names an empty key identifier after a valid
    one: the first key is enabled, the validation error leaves the
    handler, and the third key is not looked at. *)
Example enable_with_empty_key_identifier :
  let r :=
    run validating today
      (lambda_handler (request "enable" ["key/enabled"; ""; "key/disabled"]
                         false))
      fleet in
  outcome r = Crashed {| exception_class := "ParamValidationError" |}
  /\ calls (trace r)
     = [(sts, Api.get_caller_identity);
        (kms, Api.describe_key "key/enabled");
        (kms, Api.enable_key "key/enabled");
        (kms, Api.list_resource_tags "key/enabled");
        (kms, Api.describe_key "")].
Proof. vm_compute. done. Qed.

Lemma lambda_handler_blocked_witness :
  outcome (run (Kms.denying "111122223333") today
             (lambda_handler (request "disable" ["key/enabled"] false)) tt)
  = Returned {| statusCode := 403;
                body := "Execution not allowed in this account" |}.
Proof.
  refine (proj1 (lambda_handler_blocked (Kms.denying "111122223333") today
                   (request "disable" ["key/enabled"] false) tt
                   "111122223333" _ _)).
  - reflexivity.
  - by left.
Defined.

Lemma lambda_handler_no_keys_witness :
  outcome (run Kms.provider today (lambda_handler (request "rotate" [] false))
             fleet)
  = Returned {| statusCode := 400; body := "No key ARNs specified" |}.
Proof.
  refine (proj1 (lambda_handler_no_keys Kms.provider today
                   (request "rotate" [] false) fleet "444455556666" _ _ _ _)).
  - reflexivity.
  - intros [[=]|[]].
  - reflexivity.
  - reflexivity.
Defined.

Lemma lambda_handler_unsupported_witness :
  outcome (run Kms.provider today
             (lambda_handler (request "rotate" ["key/enabled"] false)) fleet)
  = Returned {| statusCode := 400; body := "Unsupported action: rotate" |}.
Proof.
  refine (proj1 (lambda_handler_unsupported Kms.provider today
                   (request "rotate" ["key/enabled"] false) fleet
                   "444455556666" _ _ _ _ _)).
  - reflexivity.
  - intros [[=]|[]].
  - reflexivity.
  - discriminate.
  - intros name Hname [= <-]. cbn in Hname.
    repeat (destruct Hname as [Hname|Hname]; [discriminate Hname|]).
    destruct Hname.
Defined.


End Coverage.
